(** * Messaging-Dashboard-Backend: the real-time layer of [src/index.js]

    A shallow embedding of the socket.io part of the server: the
    authentication middleware ([io.use]), the [connection] handler with its
    [connectedUsers] map, and the four per-socket handlers [send_message],
    [typing], [read_message] and [disconnect], over a model of the Mongoose
    collections they touch ([models/Message.js], [models/Chat.js]).

    Everything asynchronous is run to completion: one handler invocation is
    one step of the model.  What the environment decides during a step (the
    clock, the fresh [_id] of a new document, whether each storage call
    succeeds) is read from an [Oracle]. *)

From stdpp Require Import gmap strings list fin_maps pretty sorting.

(** ** JavaScript values

    Payloads and the handshake token are client-supplied JSON.  Arrays are
    left out; of the numbers, [JNum] has the integers. *)

#[warnings="-register-all"]
Inductive JsVal : Type :=
  | JUndefined
  | JNull
  | JBool (b : bool)
  | JNum (n : Z)
  | JStr (s : string)
  | JObj (fields : list (string * JsVal)).

Definition nullish (v : JsVal) : bool :=
  match v with JUndefined | JNull => true | _ => false end.

(** [!v] is [negb (truthy v)]. *)
Definition truthy (v : JsVal) : bool :=
  match v with
  | JUndefined | JNull => false
  | JBool b => b
  | JNum n => negb (n =? 0)%Z
  | JStr s => negb (String.eqb s "")
  | JObj _ => true
  end.

Fixpoint assoc (k : string) (fs : list (string * JsVal)) : JsVal :=
  match fs with
  | [] => JUndefined
  | (k', v) :: fs' => if String.eqb k k' then v else assoc k fs'
  end.

(** [v.k] for the property names the handlers read ([content], [chatId],
    [isTyping], [_id]): only an object can own one; on a boolean, number or
    string the read goes to the prototype and yields [undefined]. *)
Definition prop (k : string) (v : JsVal) : JsVal :=
  match v with JObj fs => assoc k fs | _ => JUndefined end.

(** [const { a, b } = v] throws a TypeError exactly when [v] is [undefined]
    or [null]. *)
Definition destructurable (v : JsVal) : bool := negb (nullish v).

(** [String(v)].  How a number prints ([Number.prototype.toString]:
    digits for the small integers, an exponent from 1e21 on) is left to
    [numberToString]. *)
Definition js_toString (numberToString : Z → string) (v : JsVal) : string :=
  match v with
  | JUndefined => "undefined"
  | JNull => "null"
  | JBool true => "true"
  | JBool false => "false"
  | JNum n => numberToString n
  | JStr s => s
  | JObj _ => "[object Object]"
  end.

(** ** Documents *)

Inductive Status : Type := online | offline.

(** [models/User.js] is known through the fields this layer reads and
    writes. *)
Record User : Type := {
  name : string;
  avatar : string;
  status : Status;
  lastSeen : nat;
}.

(** [chatSchema], with [timestamps: true]. *)
Record Chat : Type := {
  participants : list string;
  lastMessage : option nat;
  isGroup : bool;
  chat_updatedAt : nat;
}.

(** [messageSchema], with [timestamps: true]. *)
Record Message : Type := {
  _id : nat;
  sender : string;
  content : string;
  chatId : string;
  read : bool;
  createdAt : nat;
  updatedAt : nat;
}.

Record DB : Type := {
  users : gmap string User;
  chats : gmap string Chat;
  messages : list Message;
}.

(** The outcome of casting a value to a schema type. *)
Inductive Cast (A : Type) : Type :=
  | CastError
  | Null
  | Val (a : A).
Arguments CastError {A}.
Arguments Null {A}.
Arguments Val {A} a.

(** Mongoose's string caster: [null] and [undefined] pass through, a
    document-like object with a string [_id] gives that [_id], other plain
    objects are refused, the rest goes through [toString]. *)
Definition castString (numberToString : Z → string) (v : JsVal)
    : Cast string :=
  match v with
  | JUndefined | JNull => Null
  | JObj fs =>
      match assoc "_id" fs with
      | JStr s => if String.eqb s "" then CastError else Val s
      | _ => CastError
      end
  | _ => Val (js_toString numberToString v)
  end.

(** Values a stored document or a query filter holds at a path. *)
Inductive FieldVal : Type :=
  | FNull
  | FId (o : string)
  | FNat (n : nat)
  | FStr (s : string)
  | FBool (b : bool).

Global Instance FieldVal_eq_dec : EqDecision FieldVal.
Proof. solve_decision. Defined.

(** The paths of [messageSchema]. *)
Definition message_paths : list string :=
  ["_id"; "sender"; "content"; "chatId"; "read"; "createdAt"; "updatedAt"].

Definition message_field (m : Message) (p : string) : option FieldVal :=
  if String.eqb p "_id" then Some (FNat (_id m))
  else if String.eqb p "sender" then Some (FId (sender m))
  else if String.eqb p "content" then Some (FStr (content m))
  else if String.eqb p "chatId" then Some (FId (chatId m))
  else if String.eqb p "read" then Some (FBool (read m))
  else if String.eqb p "createdAt" then Some (FNat (createdAt m))
  else if String.eqb p "updatedAt" then Some (FNat (updatedAt m))
  else None.

(** What a MongoDB filter asks of one path: [{ p: v }], equality with a
    value, or [{ p: { $op: ... } }], an operator object, kept as the ids
    it selects on an ObjectId path. *)
Inductive Cond : Type :=
  | Is (v : FieldVal)
  | Among (sel : string → bool).

(** An equality with [null] also matches a document without the path. *)
Definition cond_matches (m : Message) (c : string * Cond) : bool :=
  match c.2 with
  | Is v =>
      match message_field m c.1 with
      | Some w => bool_decide (w = v)
      | None => bool_decide (v = FNull)
      end
  | Among sel =>
      match message_field m c.1 with
      | Some (FId o) => sel o
      | _ => false
      end
  end.

Definition filter_matches (f : list (string * Cond)) (m : Message) : bool :=
  forallb (cond_matches m) f.

(** A plain object with a key that starts with [$]: the query caster
    reads it as operators, not as a value. *)
Definition is_operator_object (v : JsVal) : bool :=
  match v with
  | JObj fs => existsb (λ kv : string * JsVal, String.prefix "$" kv.1) fs
  | _ => false
  end.

Definition in_schema (p : string) : bool :=
  existsb (String.eqb p) message_paths.

(** ** The server state *)

Record Socket : Type := {
  userId : string;
  rooms : gset string;
}.

Record State : Type := {
  connectedUsers : gmap string string;
  sockets : gmap string Socket;
  db : DB;
}.

(** [populate("sender", "name avatar")] *)
Record Profile : Type := {
  p_id : string;
  p_name : string;
  p_avatar : string;
}.

Record PopulatedMessage : Type := {
  pm_id : nat;
  pm_sender : option Profile;
  pm_content : string;
  pm_chatId : string;
  pm_read : bool;
  pm_createdAt : nat;
  pm_updatedAt : nat;
}.

Inductive Event : Type :=
  | user_status (uid : string) (s : Status)
  | new_message (m : option PopulatedMessage)
  | typing (chat : JsVal) (isTyping : JsVal)
  | messages_read (chat : JsVal) (uid : string)
  | error (message : string).

(** One [emit] call: the event and the connections it is delivered to. *)
Record Emission : Type := {
  recipients : gset string;
  event : Event;
}.

(** What the environment settles during one handler run. *)
Record Oracle : Type := {
  now : nat;
  fresh : nat;
  storage_ok : nat → bool;
}.

Record Result : Type := {
  state : State;
  out : list Emission;
  log : list string;
}.

(** A handler either returns, or lets an exception escape to the
    [uncaughtException] hook, which logs and calls [process.exit(1)]. *)
Inductive Outcome : Type :=
  | Done (r : Result)
  | ProcessExit (code : Z).

Inductive Handshake : Type :=
  | Accepted
  | Refused (err : string).

(** *** socket.io fan-out *)

(** [io.emit]: every connected socket. *)
Definition all_sockets (st : State) : gset string := dom (sockets st).

Definition in_room (room : JsVal) (s : Socket) : bool :=
  match room with
  | JStr r => bool_decide (r ∈ rooms s)
  | _ => false
  end.

(** [io.to(room)]: the sockets that joined [room].  Room names are
    strings, so any other value names no room. *)
Definition room_sockets (st : State) (room : JsVal) : gset string :=
  dom (filter (λ kv, in_room room kv.2 = true) (sockets st)).

(** [socket.to(room)]: the same without the socket itself. *)
Definition room_peers (st : State) (sid : string) (room : JsVal) : gset string :=
  room_sockets st room ∖ {[sid]}.

Definition set_db (st : State) (d : DB) : State :=
  {| connectedUsers := connectedUsers st; sockets := sockets st; db := d |}.

Definition set_users (d : DB) (us : gmap string User) : DB :=
  {| users := us; chats := chats d; messages := messages d |}.

Definition set_chats (d : DB) (cs : gmap string Chat) : DB :=
  {| users := users d; chats := cs; messages := messages d |}.

Definition set_messages (d : DB) (ms : list Message) : DB :=
  {| users := users d; chats := chats d; messages := ms |}.


(** The ObjectId caster of the bson library on strings: 24 hexadecimal
    digits in either case make an ObjectId, which prints in lower case. *)
Definition is_upper_hex (a : Ascii.ascii) : bool :=
  let n := Ascii.nat_of_ascii a in (65 <=? n) && (n <=? 70).

Definition lower_hex (a : Ascii.ascii) : Ascii.ascii :=
  if is_upper_hex a then Ascii.ascii_of_nat (Ascii.nat_of_ascii a + 32) else a.

(** A 24-digit hexadecimal string, the textual form of an ObjectId. *)
Definition is_hex (a : Ascii.ascii) : bool :=
  let n := Ascii.nat_of_ascii a in
  ((48 <=? n) && (n <=? 57)) || ((97 <=? n) && (n <=? 102)).

Definition hexObjectId (v : JsVal) : option string :=
  match v with
  | JStr s =>
      if (String.length s =? 24) && forallb is_hex (String.list_ascii_of_string s)
      then Some s else None
  | _ => None
  end.

Definition bsonObjectId (v : JsVal) : option string :=
  match v with
  | JStr s =>
      if (String.length s =? 24)
         && forallb (λ a, is_hex a || is_upper_hex a)
                    (String.list_ascii_of_string s)
      then Some (String.string_of_list_ascii
                   (map lower_hex (String.list_ascii_of_string s)))
      else None
  | _ => None
  end.

Section Server.

(** The library functions the handlers call with client data:
    [jwt.verify(token, JWT_SECRET)] gives the [userId] field of a token
    it accepts; [castObjectId] is the ObjectId caster on a value that is
    neither [null] nor [undefined]; [strictQuery] is the Mongoose option
    of that name (whether filter paths outside the schema are dropped);
    [numberToString] is [Number.prototype.toString]; [operatorCondition]
    is what the query caster and the store make of an operator object as
    the condition on an ObjectId path: the ids it selects, or [None] when
    the caster throws. *)
Variable jwt_verify : string → option string.
Variable castObjectId : JsVal → option string.
Variable strictQuery : bool.
Variable numberToString : Z → string.
Variable operatorCondition : list (string * JsVal) → option (string → bool).

Definition cast_oid (v : JsVal) : Cast string :=
  if nullish v then Null
  else match castObjectId v with Some o => Val o | None => CastError end.

(** *** Storage operations *)

(** [User.findByIdAndUpdate(id, upd)]: [None] when the id does not cast. *)
Definition User_findByIdAndUpdate
    (id : string) (upd : User → User) (d : DB) : option DB :=
  match cast_oid (JStr id) with
  | CastError => None
  | Null => Some d
  | Val o => Some (set_users d (alter upd o (users d)))
  end.

Definition set_status_online (u : User) : User :=
  {| name := name u; avatar := avatar u; status := online;
     lastSeen := lastSeen u |}.

Definition set_status_offline (t : nat) (u : User) : User :=
  {| name := name u; avatar := avatar u; status := offline;
     lastSeen := t |}.

(** [Chat.find({ participants: id })], as the list of matching ids. *)
Definition Chat_find_participant (id : string) (d : DB) : option (list string) :=
  match cast_oid (JStr id) with
  | CastError => None
  | Null => Some []
  | Val o =>
      Some (map fst (map_to_list
              (filter (λ kv, o ∈ participants kv.2) (chats d))))
  end.

(** *** [io.use]: the authentication middleware *)

Definition auth_error : string := "Authentication error".

(** Returns the authenticated user and the store, or refuses. *)
Definition authenticate (o : Oracle) (token : JsVal) (d : DB)
    : (string * DB) + list string :=
  if negb (truthy token) then inr []
  else
    match token with
    | JStr t =>
        match jwt_verify t with
        | None => inr ["Socket authentication error:"]
        | Some uid =>
            if storage_ok o 0 then
              match User_findByIdAndUpdate uid set_status_online d with
              | Some d' => inl (uid, d')
              | None => inr ["Socket authentication error:"]
              end
            else inr ["Socket authentication error:"]
        end
    | _ => inr ["Socket authentication error:"]
    end.

(** *** [io.on("connection")] up to the registration of the handlers *)

Definition on_connection (o : Oracle) (sid uid : string) (st : State) : Result :=
  let st1 :=
    {| connectedUsers := <[uid := sid]> (connectedUsers st);
       sockets := sockets st; db := db st |} in
  let e := {| recipients := all_sockets st1;
              event := user_status uid online |} in
  let joined :=
    if storage_ok o 1 then Chat_find_participant uid (db st) else None in
  match joined with
  | Some cs =>
      {| state :=
           {| connectedUsers := connectedUsers st1;
              sockets := alter (λ s, {| userId := userId s;
                                        rooms := rooms s ∪ list_to_set cs |})
                               sid (sockets st1);
              db := db st1 |};
         out := [e];
         log := ["User connected"] |}
  | None =>
      {| state := st1; out := [e];
         log := ["User connected"; "Error joining chat rooms:"] |}
  end.

(** A connection attempt: the middleware, then, when it calls [next()]
    without an error, the socket enters the namespace in the room of its
    own id and the [connection] handler runs. *)
Definition connect (o : Oracle) (sid : string) (token : JsVal) (st : State)
    : Handshake * Result :=
  match authenticate o token (db st) with
  | inr l => (Refused auth_error, {| state := st; out := []; log := l |})
  | inl (uid, d) =>
      let st0 :=
        {| connectedUsers := connectedUsers st;
           sockets := <[sid := {| userId := uid; rooms := {[sid]} |}]> (sockets st);
           db := d |} in
      (Accepted, on_connection o sid uid st0)
  end.

(** A packet for a socket that is not connected is ignored. *)
Definition idle (st : State) : Result :=
  {| state := st; out := []; log := [] |}.

(** [socket.emit("error", { message })] *)
Definition error_to (sid : string) (msg : string) : Emission :=
  {| recipients := {[sid]}; event := error msg |}.

(** *** [socket.on("send_message")] *)

(** [new Message({ sender, content, chatId, read: false })] and the
    validation [save()] runs first: the three paths are [required], an
    empty string does not satisfy [required], and a value that does not
    cast fails validation too.  [None] is a rejected [save()]. *)
Definition Message_validate (o : Oracle) (uid : string) (content chat : JsVal)
    : option Message :=
  match cast_oid (JStr uid), castString numberToString content,
        cast_oid chat with
  | Val s, Val c, Val ch =>
      if String.eqb c "" then None
      else Some {| _id := fresh o; sender := s; content := c; chatId := ch;
                   read := false; createdAt := now o; updatedAt := now o |}
  | _, _, _ => None
  end.

Definition set_lastMessage (mid t : nat) (c : Chat) : Chat :=
  {| participants := participants c; lastMessage := Some mid;
     isGroup := isGroup c; chat_updatedAt := t |}.

(** [Chat.findByIdAndUpdate(chatId, { lastMessage })] *)
Definition Chat_findByIdAndUpdate (id : JsVal) (mid t : nat) (d : DB)
    : option DB :=
  match cast_oid id with
  | CastError => None
  | Null => Some d
  | Val c => Some (set_chats d (alter (set_lastMessage mid t) c (chats d)))
  end.

Definition profile_of (d : DB) (uid : string) : option Profile :=
  (λ u, {| p_id := uid; p_name := name u; p_avatar := avatar u |})
    <$> users d !! uid.

Definition populated (d : DB) (m : Message) : PopulatedMessage :=
  {| pm_id := _id m; pm_sender := profile_of d (sender m);
     pm_content := content m; pm_chatId := chatId m; pm_read := read m;
     pm_createdAt := createdAt m; pm_updatedAt := updatedAt m |}.

(** [Message.findById(id).populate("sender", "name avatar").lean()] *)
Definition Message_findById_populated (mid : nat) (d : DB)
    : option PopulatedMessage :=
  populated d <$> find (λ m, _id m =? mid) (messages d).

Definition send_failed (sid : string) (st : State) : Outcome :=
  Done {| state := st;
          out := [error_to sid "Failed to send message"];
          log := ["Error sending message:"] |}.

Definition on_send_message (o : Oracle) (sid : string) (data : JsVal)
    (st : State) : Outcome :=
  match sockets st !! sid with
  | None => Done (idle st)
  | Some s =>
      if negb (destructurable data) then send_failed sid st
      else
        let content := prop "content" data in
        let chat := prop "chatId" data in
        match Message_validate o (userId s) content chat with
        | None => send_failed sid st
        | Some m =>
            if negb (storage_ok o 0) then send_failed sid st
            else
              let d1 := set_messages (db st) (messages (db st) ++ [m]) in
              let updated :=
                if storage_ok o 1
                then Chat_findByIdAndUpdate chat (_id m) (now o) d1
                else None in
              match updated with
              | None => send_failed sid (set_db st d1)
              | Some d2 =>
                  let st2 := set_db st d2 in
                  if negb (storage_ok o 2) then send_failed sid st2
                  else
                    Done {| state := st2;
                            out := [ {| recipients := room_sockets st2 chat;
                                        event := new_message
                                          (Message_findById_populated (_id m) d2) |} ];
                            log := [] |}
              end
        end
  end.

(** *** [socket.on("typing")]

    The handler is synchronous and has no [try]: the TypeError of a
    failed destructuring is an uncaught exception. *)
Definition on_typing (sid : string) (data : JsVal) (st : State) : Outcome :=
  match sockets st !! sid with
  | None => Done (idle st)
  | Some s =>
      if negb (destructurable data) then ProcessExit 1
      else
        let chat := prop "chatId" data in
        let isTyping := prop "isTyping" data in
        Done {| state := st;
                out := [ {| recipients := room_peers st sid chat;
                            event := typing chat isTyping |} ];
                log := [] |}
  end.

(** *** [socket.on("read_message")] *)

(** The condition the payload's [chatId] puts on the path [chatId]: an
    operator object passes to the store as operators; any other value is
    cast to an ObjectId, a [null] or [undefined] one staying as it is.
    [None] when the caster throws. *)
Definition chat_condition (chat : JsVal) : option Cond :=
  match chat with
  | JObj fs =>
      if is_operator_object chat then Among <$> operatorCondition fs
      else match castObjectId chat with
           | Some c => Some (Is (FId c))
           | None => None
           end
  | _ =>
      match cast_oid chat with
      | CastError => None
      | Null => Some (Is FNull)
      | Val c => Some (Is (FId c))
      end
  end.

(** The filter [{ chatId, receiver: socket.userId, read: false }] as the
    query caster leaves it: [None] when the caster throws on [chatId];
    under [strictQuery] the conditions on paths outside the schema are
    removed. *)
Definition read_filter (uid : string) (chat : JsVal)
    : option (list (string * Cond)) :=
  let conds c :=
    [("chatId", c); ("receiver", Is (FStr uid)); ("read", Is (FBool false))] in
  let strip f :=
    if strictQuery
    then filter (λ c : string * Cond, in_schema c.1 = true) f
    else f in
  match chat_condition chat with
  | None => None
  | Some c => Some (strip (conds c))
  end.

Definition set_read (t : nat) (m : Message) : Message :=
  {| _id := _id m; sender := sender m; content := content m;
     chatId := chatId m; read := true; createdAt := createdAt m;
     updatedAt := t |}.

(** [Message.updateMany(filter, { read: true })] *)
Definition Message_updateMany (f : list (string * Cond)) (t : nat)
    (ms : list Message) : list Message :=
  map (λ m, if filter_matches f m then set_read t m else m) ms.

Definition read_failed (sid : string) (st : State) : Outcome :=
  Done {| state := st;
          out := [error_to sid "Failed to mark messages as read"];
          log := ["Error marking messages as read:"] |}.

Definition on_read_message (o : Oracle) (sid : string) (data : JsVal)
    (st : State) : Outcome :=
  match sockets st !! sid with
  | None => Done (idle st)
  | Some s =>
      if negb (destructurable data) then read_failed sid st
      else
        let chat := prop "chatId" data in
        let query :=
          if storage_ok o 0 then read_filter (userId s) chat else None in
        match query with
        | None => read_failed sid st
        | Some f =>
            let st1 :=
              set_db st (set_messages (db st)
                (Message_updateMany f (now o) (messages (db st)))) in
            Done {| state := st1;
                    out := [ {| recipients := room_peers st1 sid chat;
                                event := messages_read chat (userId s) |} ];
                    log := [] |}
        end
  end.

(** *** [socket.on("disconnect")]

    socket.io takes the socket out of the namespace and of its rooms
    before the handler runs. *)
Definition on_disconnect (o : Oracle) (sid : string) (st : State) : Outcome :=
  match sockets st !! sid with
  | None => Done (idle st)
  | Some s =>
      let st1 :=
        {| connectedUsers := delete (userId s) (connectedUsers st);
           sockets := delete sid (sockets st);
           db := db st |} in
      let written :=
        if storage_ok o 0
        then User_findByIdAndUpdate (userId s) (set_status_offline (now o)) (db st)
        else None in
      match written with
      | Some d =>
          let st2 := set_db st1 d in
          Done {| state := st2;
                  out := [ {| recipients := all_sockets st2;
                              event := user_status (userId s) offline |} ];
                  log := ["User disconnected"] |}
      | None =>
          Done {| state := st1; out := [];
                  log := ["User disconnected";
                          "Error updating user status on disconnect:"] |}
      end
  end.

End Server.

(** ** Runs of the server

    The [connection] handler registers the socket's listeners only after
    it has waited for [Chat.find].  A socket that closes before that is
    taken out of the namespace by socket.io, and its [disconnect] finds no
    listener: of the connection there remain the registry entry, the
    status in the store and the announcement made. *)
Definition leave_before_listening (sid : string) (r : Result) : Result :=
  {| state := {| connectedUsers := connectedUsers (state r);
                 sockets := delete sid (sockets (state r));
                 db := db (state r) |};
     out := out r;
     log := log r |}.

Section Steps.

Variable jwt_verify : string → option string.
Variable castObjectId : JsVal → option string.
Variable strictQuery : bool.
Variable numberToString : Z → string.
Variable operatorCondition : list (string * JsVal) → option (string → bool).

(** The steps of sockets that are listening: a connection attempt, with a
    socket id not in use, that stays until its listeners are registered,
    or one handler run that returns. *)
Inductive listening_step (st : State) : State → Prop :=
  | step_connect (o : Oracle) (sid : string) (token : JsVal)
      (h : Handshake) (r : Result) :
      sockets st !! sid = None →
      connect jwt_verify castObjectId o sid token st = (h, r) →
      listening_step st (state r)
  | step_send_message (o : Oracle) (sid : string) (data : JsVal) (r : Result) :
      on_send_message castObjectId numberToString o sid data st = Done r →
      listening_step st (state r)
  | step_typing (sid : string) (data : JsVal) (r : Result) :
      on_typing sid data st = Done r →
      listening_step st (state r)
  | step_read_message (o : Oracle) (sid : string) (data : JsVal) (r : Result) :
      on_read_message castObjectId strictQuery operatorCondition o sid data st
      = Done r →
      listening_step st (state r)
  | step_disconnect (o : Oracle) (sid : string) (r : Result) :
      on_disconnect castObjectId o sid st = Done r →
      listening_step st (state r).

(** A step of the server: one of the above, or an accepted connection
    whose socket closes before its listeners are registered.  (An event
    such a socket sends in the meantime finds no listener and is no
    step.) *)
Inductive step (st : State) : State → Prop :=
  | step_listening (st' : State) :
      listening_step st st' → step st st'
  | step_leave_early (o : Oracle) (sid : string) (token : JsVal) (r : Result) :
      sockets st !! sid = None →
      connect jwt_verify castObjectId o sid token st = (Accepted, r) →
      step st (state (leave_before_listening sid r)).

End Steps.

(** Every [connectedUsers] entry names a connected socket of that user. *)
Definition registry_sound (st : State) : Prop :=
  ∀ u sid, connectedUsers st !! u = Some sid →
    ∃ s, sockets st !! sid = Some s ∧ userId s = u.

(** [m'] is [m], or [m] marked read at time [t]. *)
Definition same_or_marked (t : nat) (m m' : Message) : Prop :=
  m' = m ∨ (read m = false ∧ m' = set_read t m).


(** ** The chat routes ([routes/chats.js])

    [uid] is [req.userId], which the [auth] middleware leaves on the
    request.  Of a populated participant the model shows the fields [User]
    carries. *)

(** [messageSchema]'s [toJSON]: the virtual [id] and the added
    [timestamp]. *)
Record MessageJSON : Type := {
  j_id : nat;
  j_sender : string;
  j_content : string;
  j_chatId : string;
  j_read : bool;
  j_createdAt : nat;
  j_updatedAt : nat;
  j_virtual_id : nat;
  j_timestamp : nat;
}.

Definition Message_toJSON (m : Message) : MessageJSON :=
  {| j_id := _id m; j_sender := sender m; j_content := content m;
     j_chatId := chatId m; j_read := read m; j_createdAt := createdAt m;
     j_updatedAt := updatedAt m; j_virtual_id := _id m;
     j_timestamp := createdAt m |}.

(** [chat.toObject()] after [populate], with [unreadCount] assigned. *)
Record ChatView : Type := {
  cv_id : string;
  cv_participants : list (string * User);
  cv_lastMessage : option Message;
  cv_isGroup : bool;
  cv_updatedAt : nat;
  cv_unreadCount : nat;
}.

Inductive Body : Type :=
  | BError (message : string)
  | BMessages (ms : list MessageJSON)
  | BChat (c : ChatView)
  | BChats (cs : list ChatView).

Record Response : Type := {
  code : nat;
  body : Body;
}.

Definition server_error : Response :=
  {| code := 500; body := BError "Server error" |}.

(** The conditions [{ chatId: chat, sender: { $ne: k }, read: false }] of
    the routes' [Message.countDocuments]. *)
Definition is_unread_for (chat k : string) (m : Message) : bool :=
  String.eqb (chatId m) chat && negb (String.eqb (sender m) k)
  && negb (read m).

Definition count_unread (chat k : string) (ms : list Message) : nat :=
  length (List.filter (is_unread_for chat k) ms).

(** [populate("participants", ...)]: ids without a user drop out. *)
Definition populate_participants (d : DB) (ps : list string)
    : list (string * User) :=
  omap (λ p, (λ u, (p, u)) <$> users d !! p) ps.

(** [populate("lastMessage")] *)
Definition populate_lastMessage (d : DB) (ch : Chat) : option Message :=
  lastMessage ch ≫= λ i, find (λ m, _id m =? i) (messages d).

Definition view_chat (d : DB) (c : string) (ch : Chat) (n : nat) : ChatView :=
  {| cv_id := c;
     cv_participants := populate_participants d (participants ch);
     cv_lastMessage := populate_lastMessage d ch;
     cv_isGroup := isGroup ch;
     cv_updatedAt := chat_updatedAt ch;
     cv_unreadCount := n |}.

(** The conditions [{ isGroup: false,
    participants: { $all: [k, p], $size: 2 } }]. *)
Definition is_direct_of (k p : string) (ch : Chat) : bool :=
  negb (isGroup ch) && bool_decide (k ∈ participants ch)
  && bool_decide (p ∈ participants ch) && (length (participants ch) =? 2).

Definition older_first (a b : Message) : Prop := createdAt a ≤ createdAt b.

Definition newer_chat_first (a b : string * Chat) : Prop :=
  chat_updatedAt b.2 ≤ chat_updatedAt a.2.

Global Instance older_first_dec : RelDecision older_first.
Proof. intros a b. unfold older_first. apply _. Defined.

Global Instance newer_chat_first_dec : RelDecision newer_chat_first.
Proof. intros a b. unfold newer_chat_first. apply _. Defined.

Section Routes.

Variable castObjectId : JsVal → option string.

(** [Chat.findOne({ _id: c, participants: k })] *)
Definition Chat_findOne_participant (c k : string) (d : DB) : option Chat :=
  match chats d !! c with
  | Some ch => if bool_decide (k ∈ participants ch) then Some ch else None
  | None => None
  end.

(** [router.get("/:chatId/messages")]: the storage calls are the
    [findOne] and the [find]; [sort({ createdAt: 1 })] is a sort by
    [createdAt], oldest first. *)
Definition get_messages (o : Oracle) (uid chatParam : string) (d : DB)
    : Response :=
  match cast_oid castObjectId (JStr chatParam),
        cast_oid castObjectId (JStr uid) with
  | Val c, Val k =>
      if negb (storage_ok o 0) then server_error
      else
        match Chat_findOne_participant c k d with
        | None => {| code := 404; body := BError "Chat not found" |}
        | Some _ =>
            if negb (storage_ok o 1) then server_error
            else
              {| code := 200;
                 body := BMessages
                   (Message_toJSON <$>
                      merge_sort older_first
                        (List.filter (λ m, String.eqb (chatId m) c)
                           (messages d))) |}
        end
  | _, _ => server_error
  end.

(** [Chat.findOne] for an existing direct chat of [k] and [p]: one of the
    matching chats. *)
Definition Chat_findOne_direct (k p : string) (d : DB)
    : option (string * Chat) :=
  head (map_to_list
          (filter (λ kv : string * Chat, is_direct_of k p kv.2 = true)
                  (chats d))).

(** [router.post("/")]: the response and the store it leaves.  [new_id]
    is the [_id] of [new Chat(...)].  The storage calls are, in order,
    [User.findById], [Chat.findOne], then either [Chat.findById] and
    [countDocuments], or [save] and [Chat.findById]. *)
Definition create_chat (o : Oracle) (new_id uid : string) (body : JsVal)
    (d : DB) : Response * DB :=
  if negb (destructurable body) then (server_error, d)
  else
    let participantId := prop "participantId" body in
    if negb (storage_ok o 0) then (server_error, d)
    else
      match cast_oid castObjectId participantId with
      | CastError => (server_error, d)
      | Null => ({| code := 404; body := BError "User not found" |}, d)
      | Val p =>
          match users d !! p with
          | None => ({| code := 404; body := BError "User not found" |}, d)
          | Some _ =>
              match cast_oid castObjectId (JStr uid) with
              | Val k =>
                  if negb (storage_ok o 1) then (server_error, d)
                  else
                    match Chat_findOne_direct k p d with
                    | Some (c, ch) =>
                        if storage_ok o 2 && storage_ok o 3
                        then ({| code := 200;
                                 body := BChat (view_chat d c ch
                                   (count_unread c k (messages d))) |}, d)
                        else (server_error, d)
                    | None =>
                        if negb (storage_ok o 2) then (server_error, d)
                        else
                          let ch :=
                            {| participants := [k; p]; lastMessage := None;
                               isGroup := false; chat_updatedAt := now o |} in
                          let d' := set_chats d (<[new_id := ch]> (chats d)) in
                          if negb (storage_ok o 3) then (server_error, d')
                          else ({| code := 201;
                                   body := BChat (view_chat d' new_id ch 0) |},
                                d')
                    end
              | _ => (server_error, d)
              end
          end
      end.

(** [router.get("/")]: the user's chats, latest [updatedAt] first, each
    with its unread count.  Storage call 0 is the [find]; call [i + 1] is
    the [countDocuments] of the [i]-th chat. *)
Definition get_chats (o : Oracle) (uid : string) (d : DB) : Response :=
  match cast_oid castObjectId (JStr uid) with
  | Val k =>
      if negb (storage_ok o 0) then server_error
      else
        let mine :=
          merge_sort newer_chat_first
            (map_to_list
               (filter (λ kv : string * Chat, k ∈ participants kv.2)
                       (chats d))) in
        if forallb (λ i, storage_ok o (S i)) (seq 0 (length mine))
        then {| code := 200;
                body := BChats
                  ((λ kv : string * Chat,
                      view_chat d kv.1 kv.2
                        (count_unread kv.1 k (messages d))) <$> mine) |}
        else server_error
  | _ => server_error
  end.

End Routes.

(** ** The spec's reading of a read receipt

    [markMessagesRead(chatId, excludeSender)]: the unread messages of the
    chat that someone other than the reader wrote become read. *)
Definition markMessagesRead_spec (chat reader : string) (t : nat)
    (ms : list Message) : list Message :=
  map (λ m,
         if String.eqb (chatId m) chat && negb (read m)
            && negb (String.eqb (sender m) reader)
         then set_read t m else m) ms.

(** ** Sample readings of the library functions *)

(** The digits of an integer, as [Number.prototype.toString] prints the
    safe integers. *)
Definition decimal (n : Z) : string := pretty n.

(** A reading of operator objects that knows [{ $ne: null }], which every
    stored id satisfies, and throws on the rest. *)
Definition sample_operators (fs : list (string * JsVal))
    : option (string → bool) :=
  match fs with
  | [(k, JNull)] => if String.eqb k "$ne" then Some (λ _, true) else None
  | _ => None
  end.

(** ** A sample deployment: users A, B and C; A and B share [chat1] *)

Definition uA : string := "aaaaaaaaaaaaaaaaaaaaaaaa".
Definition uB : string := "bbbbbbbbbbbbbbbbbbbbbbbb".
Definition uC : string := "cccccccccccccccccccccccc".
Definition chat1 : string := "0123456789abcdef01234567".

Definition sample_verify (t : string) : option string :=
  if String.eqb t "token-A" then Some uA
  else if String.eqb t "token-B" then Some uB
  else if String.eqb t "token-C" then Some uC
  else None.

Definition sample_user (n : string) : User :=
  {| name := n; avatar := "avatar.png"; status := offline; lastSeen := 0 |}.

Definition sample_db : DB :=
  {| users := {[ uA := sample_user "A"; uB := sample_user "B";
                 uC := sample_user "C" ]};
     chats := {[ chat1 := {| participants := [uA; uB]; lastMessage := None;
                            isGroup := false; chat_updatedAt := 0 |} ]};
     messages := [] |}.

Definition all_ok : Oracle :=
  {| now := 7; fresh := 1; storage_ok := λ _, true |}.

(** The first storage call of the step fails. *)
Definition write_fails : Oracle :=
  {| now := 7; fresh := 1; storage_ok := λ k, negb (k =? 0) |}.

Definition online_db (us : list string) : DB :=
  set_users sample_db
    (foldr (λ u m, alter set_status_online u m) (users sample_db) us).

Definition sock_s1 : Socket := {| userId := uA; rooms := {[ "s1"; chat1 ]} |}.
Definition sock_s2 : Socket := {| userId := uB; rooms := {[ "s2"; chat1 ]} |}.
Definition sock_s3 : Socket := {| userId := uC; rooms := {[ "s3" ]} |}.

Definition st_empty : State :=
  {| connectedUsers := ∅; sockets := ∅; db := sample_db |}.

(** A is connected as [s1]. *)
Definition st_A : State :=
  {| connectedUsers := {[ uA := "s1" ]};
     sockets := {[ "s1" := sock_s1 ]};
     db := online_db [uA] |}.

(** A is connected twice, as [s1] and then as [s2]. *)
Definition st_AA : State :=
  {| connectedUsers := {[ uA := "s2" ]};
     sockets := {[ "s1" := sock_s1;
                   "s2" := {| userId := uA; rooms := {[ "s2"; chat1 ]} |} ]};
     db := online_db [uA] |}.

(** A, B and C are connected as [s1], [s2] and [s3]; C is in no chat. *)
Definition st_ABC : State :=
  {| connectedUsers := {[ uA := "s1"; uB := "s2"; uC := "s3" ]};
     sockets := {[ "s1" := sock_s1; "s2" := sock_s2; "s3" := sock_s3 ]};
     db := online_db [uA; uB; uC] |}.

Definition sample_message (i : nat) (from text : string) (r : bool) : Message :=
  {| _id := i; sender := from; content := text; chatId := chat1; read := r;
     createdAt := i; updatedAt := i |}.

(** [st_ABC] with two unread messages in [chat1], one written by A and one
    by B. *)
Definition st_unread : State :=
  set_db st_ABC
    (set_messages (db st_ABC)
       [sample_message 1 uA "hello" false; sample_message 2 uB "hi" false]).

Definition chat1_payload : JsVal := JObj [("chatId", JStr chat1)].

Definition hello_payload : JsVal :=
  JObj [("content", JStr "hi"); ("chatId", JStr chat1)].

Definition empty_payload : JsVal :=
  JObj [("content", JStr ""); ("chatId", JStr chat1)].


Definition chat2 : string := "89abcdef0123456789abcdef".

(** A message for [chat1], its id written in upper case. *)
Definition shouted_payload : JsVal :=
  JObj [("content", JStr "hi"); ("chatId", JStr "0123456789ABCDEF01234567")].

(** The payload [{ chatId: { $ne: null } }]. *)
Definition any_chat_payload : JsVal :=
  JObj [("chatId", JObj [("$ne", JNull)])].

(** [st_ABC] with an unread message of B in [chat1] and an unread message
    of C in [chat2]. *)
Definition st_two_chats : State :=
  set_db st_ABC
    (set_messages (db st_ABC)
       [sample_message 1 uB "hi" false;
        {| _id := 2; sender := uC; content := "psst"; chatId := chat2;
           read := false; createdAt := 2; updatedAt := 2 |}]).

(** The body of a [POST /] that asks for a chat with [u]. *)
Definition invite (u : string) : JsVal := JObj [("participantId", JStr u)].

(** The second storage call of the step fails. *)
Definition second_fails : Oracle :=
  {| now := 7; fresh := 3; storage_ok := λ k, negb (k =? 1) |}.

Definition later : Oracle :=
  {| now := 9; fresh := 3; storage_ok := λ _, true |}.

Definition hello_message : Message :=
  {| _id := 1; sender := uA; content := "hi"; chatId := chat1;
     read := false; createdAt := 7; updatedAt := 7 |}.

(** * Properties *)

(** The sample states are the ones the handlers produce. *)
Example sample_states_reachable :
  let r1 := (connect sample_verify hexObjectId all_ok "s1" (JStr "token-A") st_empty).2 in
  let r2 := (connect sample_verify hexObjectId all_ok "s2" (JStr "token-A") (state r1)).2 in
  let r3 := (connect sample_verify hexObjectId all_ok "s2" (JStr "token-B") (state r1)).2 in
  let r4 := (connect sample_verify hexObjectId all_ok "s3" (JStr "token-C") (state r3)).2 in
  state r1 = st_A ∧ state r2 = st_AA ∧ state r4 = st_ABC.
Proof. vm_compute. repeat split; reflexivity. Qed.

(** ** Fan-out *)

Lemma elem_of_room_sockets (st : State) (room : JsVal) (sid : string) :
  sid ∈ room_sockets st room ↔
  ∃ s, sockets st !! sid = Some s ∧ in_room room s = true.
Proof.
  unfold room_sockets. rewrite elem_of_dom. unfold is_Some.
  setoid_rewrite map_lookup_filter_Some. naive_solver.
Qed.


Lemma room_sockets_set_db (st : State) (d : DB) (room : JsVal) :
  room_sockets (set_db st d) room = room_sockets st room.
Proof. reflexivity. Qed.


Section Properties.

Variable jwt_verify : string → option string.
Variable castObjectId : JsVal → option string.
Variable strictQuery : bool.
Variable numberToString : Z → string.
Variable operatorCondition : list (string * JsVal) → option (string → bool).

(** ** The authentication gate *)

Lemma authenticate_falsy (o : Oracle) (token : JsVal) (d : DB) :
  truthy token = false → authenticate jwt_verify castObjectId o token d = inr [].
Proof. intros H. unfold authenticate. now rewrite H. Qed.

(** C8: a connection attempt whose token is missing (or otherwise falsy)
    is refused with "Authentication error", and the step leaves the
    whole state as it was: no registry entry, no socket with its
    subscriptions, no store write, and no event is emitted. *)
Theorem connect_without_token_refused
    (o : Oracle) (sid : string) (token : JsVal) (st : State) :
  truthy token = false →
  connect jwt_verify castObjectId o sid token st
  = (Refused "Authentication error", {| state := st; out := []; log := [] |}).
Proof.
  intros H. unfold connect. now rewrite (authenticate_falsy o token (db st) H).
Qed.

(** C4, as the code has it: with a token [jwt.verify] accepts, a failed
    status write is logged and the connection is refused with
    "Authentication error"; the state is unchanged and nothing is
    emitted. *)
Theorem connect_status_write_failure_refused
    (o : Oracle) (sid t uid : string) (st : State) :
  t ≠ "" →
  jwt_verify t = Some uid →
  storage_ok o 0 = false →
  connect jwt_verify castObjectId o sid (JStr t) st
  = (Refused "Authentication error",
     {| state := st; out := []; log := ["Socket authentication error:"] |}).
Proof.
  intros Ht Hv Hw. unfold connect, authenticate. simpl.
  destruct (String.eqb_spec t "") as [->|_]; [done|]. simpl.
  now rewrite Hv, Hw.
Qed.

(** ** The registry *)

Lemma connect_accepted_inv
    (o : Oracle) (sid : string) (token : JsVal) (st : State) (r : Result) :
  connect jwt_verify castObjectId o sid token st = (Accepted, r) →
  ∃ t uid d,
    token = JStr t ∧ jwt_verify t = Some uid ∧ storage_ok o 0 = true ∧
    User_findByIdAndUpdate castObjectId uid set_status_online (db st) = Some d ∧
    r = on_connection castObjectId o sid uid
          {| connectedUsers := connectedUsers st;
             sockets := <[sid := {| userId := uid; rooms := {[sid]} |}]> (sockets st);
             db := d |}.
Proof.
  unfold connect, authenticate. intros H.
  destruct (negb (truthy token)); [done|].
  destruct token as [| | | |t|]; try done.
  destruct (jwt_verify t) as [uid|] eqn:Hv; [|done].
  destruct (storage_ok o 0) eqn:Hs; [|done].
  destruct (User_findByIdAndUpdate _ _ _ _) as [d|] eqn:Hd; [|done].
  inversion H; subst. eauto 10.
Qed.

Lemma on_connection_registry (o : Oracle) (sid uid : string) (st : State) :
  connectedUsers (state (on_connection castObjectId o sid uid st))
  = <[uid := sid]> (connectedUsers st).
Proof.
  unfold on_connection.
  destruct (if storage_ok o 1 then _ else _); reflexivity.
Qed.

Lemma on_connection_out (o : Oracle) (sid uid : string) (st : State) :
  out (on_connection castObjectId o sid uid st)
  = [ {| recipients := dom (sockets st); event := user_status uid online |} ].
Proof.
  unfold on_connection.
  destruct (if storage_ok o 1 then _ else _); reflexivity.
Qed.

Lemma on_disconnect_registry (o : Oracle) (sid : string) (s : Socket) (st : State) :
  sockets st !! sid = Some s →
  ∃ r, on_disconnect castObjectId o sid st = Done r ∧
       connectedUsers (state r) = delete (userId s) (connectedUsers st) ∧
       sockets (state r) = delete sid (sockets st).
Proof.
  intros Hs. unfold on_disconnect. rewrite Hs.
  destruct (if storage_ok o 0 then _ else _); eauto.
Qed.

(** C2, as the code has it: [connectedUsers] holds one connection id per
    user.  An accepted connection [sid] of user [uid] sets the user's
    entry to [sid], whatever it held, and leaves the other users'
    entries alone; a disconnect of any connection of a user deletes the
    user's entry, so that the user has none, and leaves the other users'
    entries alone. *)
Theorem registry_one_entry_per_user
    (o : Oracle) (sid : string) (st : State) :
  (∀ token r,
     connect jwt_verify castObjectId o sid token st = (Accepted, r) →
     ∃ t uid, token = JStr t ∧ jwt_verify t = Some uid ∧
       connectedUsers (state r) !! uid = Some sid ∧
       ∀ u, u ≠ uid → connectedUsers (state r) !! u = connectedUsers st !! u)
  ∧
  (∀ s, sockets st !! sid = Some s →
     ∃ r, on_disconnect castObjectId o sid st = Done r ∧
       connectedUsers (state r) !! userId s = None ∧
       ∀ u, u ≠ userId s → connectedUsers (state r) !! u = connectedUsers st !! u).
Proof.
  split.
  - intros token r H.
    destruct (connect_accepted_inv _ _ _ _ _ H) as (t & uid & d & -> & Hv & _ & _ & ->).
    exists t, uid. rewrite on_connection_registry. simpl.
    repeat split; [done | apply lookup_insert_eq |].
    intros u Hu. now apply lookup_insert_ne.
  - intros s Hs.
    destruct (on_disconnect_registry o sid s st Hs) as (r & Hr & Hreg & _).
    exists r. rewrite Hreg. repeat split; [done | apply lookup_delete_eq |].
    intros u Hu. now apply lookup_delete_ne.
Qed.

(** ** Presence *)

Lemma cast_oid_JStr (x : string) :
  cast_oid castObjectId (JStr x)
  = match castObjectId (JStr x) with Some k => Val k | None => CastError end.
Proof. reflexivity. Qed.

(** C5, as the code has it: every accepted connection broadcasts one
    [user_status] online event to all connected sockets, the new one
    included, whether or not the user already had a connection; every
    disconnect whose status write succeeds broadcasts one [user_status]
    offline event to all remaining sockets, whether or not the user has
    other connections, and stores for the user the status offline and as
    [lastSeen] the handler's clock reading, which is no earlier than any
    time that is not after it. *)
Theorem presence_broadcast_per_connection
    (o : Oracle) (sid : string) (st : State) :
  (∀ token r,
     connect jwt_verify castObjectId o sid token st = (Accepted, r) →
     ∃ t uid, token = JStr t ∧ jwt_verify t = Some uid ∧
       out r = [ {| recipients := {[sid]} ∪ dom (sockets st);
                    event := user_status uid online |} ])
  ∧
  (∀ s k, sockets st !! sid = Some s →
     storage_ok o 0 = true →
     castObjectId (JStr (userId s)) = Some k →
     ∃ r, on_disconnect castObjectId o sid st = Done r ∧
       out r = [ {| recipients := dom (sockets st) ∖ {[sid]};
                    event := user_status (userId s) offline |} ] ∧
       users (db (state r))
       = alter (set_status_offline (now o)) k (users (db st)) ∧
       ∀ u, users (db st) !! k = Some u →
         ∃ u', users (db (state r)) !! k = Some u' ∧
           status u' = offline ∧ lastSeen u' = now o ∧
           ∀ closed, closed ≤ now o → closed ≤ lastSeen u').
Proof.
  split.
  - intros token r H.
    destruct (connect_accepted_inv _ _ _ _ _ H) as (t & uid & d & -> & Hv & _ & _ & ->).
    exists t, uid. rewrite on_connection_out. simpl.
    now rewrite dom_insert_L.
  - intros s k Hs Hok Hk. unfold on_disconnect.
    rewrite Hs, Hok. unfold User_findByIdAndUpdate.
    rewrite cast_oid_JStr, Hk. eexists. split; [reflexivity|]. simpl.
    unfold all_sockets. simpl. rewrite dom_delete_L.
    repeat split.
    intros u Hu. exists (set_status_offline (now o) u).
    rewrite lookup_alter_eq, Hu. simpl. repeat split. auto.
Qed.

(** ** The event handlers *)

(** C6: a [typing] event without a payload ([undefined], or [null]),
    sent on a connected socket, ends the process with exit code 1: no
    error event answers it and the handler does not return. *)
Theorem typing_without_payload_exits
    (sid : string) (s : Socket) (data : JsVal) (st : State) :
  sockets st !! sid = Some s →
  nullish data = true →
  on_typing sid data st = ProcessExit 1.
Proof.
  intros Hs Hn. unfold on_typing, destructurable. now rewrite Hs, Hn.
Qed.

(** The two asynchronous handlers catch the same TypeError and answer
    with an error event. *)
Lemma async_handlers_catch_missing_payload
    (o : Oracle) (sid : string) (s : Socket) (data : JsVal) (st : State) :
  sockets st !! sid = Some s →
  nullish data = true →
  on_send_message castObjectId numberToString o sid data st = send_failed sid st ∧
  on_read_message castObjectId strictQuery operatorCondition o sid data st = read_failed sid st.
Proof.
  intros Hs Hn. unfold on_send_message, on_read_message, destructurable.
  now rewrite Hs, Hn.
Qed.

(** C3, as the code has it: a [send_message] whose content is the empty
    string is answered with one error event to the originator alone;
    the state is unchanged, so no Message is stored and no
    [lastMessage] moves, and no [new_message] is emitted.  Whether the
    originator is subscribed to the chat plays no part. *)
Theorem send_message_empty_content_rejected
    (o : Oracle) (sid : string) (s : Socket) (data : JsVal) (st : State) :
  sockets st !! sid = Some s →
  prop "content" data = JStr "" →
  on_send_message castObjectId numberToString o sid data st
  = Done {| state := st;
            out := [ {| recipients := {[sid]};
                        event := error "Failed to send message" |} ];
            log := ["Error sending message:"] |}.
Proof.
  intros Hs Hc. unfold on_send_message. rewrite Hs.
  destruct (negb (destructurable data)); [reflexivity|].
  unfold Message_validate. rewrite Hc. simpl castString.
  destruct (cast_oid _ (JStr _)); try reflexivity.
  destruct (cast_oid _ _); reflexivity.
Qed.

(** ** [send_message]: persistence and fan-out *)

Lemma Message_validate_Some
    (o : Oracle) (uid : string) (content chat : JsVal) (m : Message) :
  Message_validate castObjectId numberToString o uid content chat = Some m →
  ∃ su c ch,
    cast_oid castObjectId (JStr uid) = Val su ∧
    castString numberToString content = Val c ∧ c ≠ "" ∧
    cast_oid castObjectId chat = Val ch ∧
    m = {| _id := fresh o; sender := su; content := c; chatId := ch;
           read := false; createdAt := now o; updatedAt := now o |}.
Proof.
  unfold Message_validate. intros H.
  destruct (cast_oid _ (JStr uid)) as [| |su]; try done.
  destruct (castString numberToString content) as [| |c]; try done.
  destruct (cast_oid _ chat) as [| |ch]; try done.
  destruct (String.eqb_spec c "") as [|Hc]; [done|].
  inversion H. eauto 10.
Qed.

Lemma find_last_added (mid : nat) (ms : list Message) (m : Message) :
  _id m = mid →
  ∃ x, find (λ m', _id m' =? mid) (ms ++ [m]) = Some x ∧ _id x = mid ∧
       ((∀ m', m' ∈ ms → _id m' ≠ mid) → x = m).
Proof.
  intros Hm. induction ms as [|a ms IH]; simpl.
  - rewrite Hm, Nat.eqb_refl. eauto.
  - destruct (Nat.eqb_spec (_id a) mid) as [Ha|Ha].
    + exists a. repeat split; [done|]. intros Hf.
      exfalso. apply (Hf a); [left | done].
    + destruct IH as (x & Hx & Hid & Hf). exists x. repeat split; [done..|].
      intros Hall. apply Hf. intros m' Hin. apply Hall. now right.
Qed.

(** The three outcomes of [send_message] on a connected socket. *)
Lemma on_send_message_cases
    (o : Oracle) (sid : string) (s : Socket) (data : JsVal) (st : State) :
  sockets st !! sid = Some s →
  let chat := prop "chatId" data in
  let v := Message_validate castObjectId numberToString o (userId s) (prop "content" data) chat in
  (* nothing stored *)
  ((v = None ∨ storage_ok o 0 = false) ∧
   on_send_message castObjectId numberToString o sid data st = send_failed sid st)
  ∨
  (* stored, a later storage call failed *)
  (∃ m d, v = Some m ∧ storage_ok o 0 = true ∧
     (storage_ok o 1 = false ∨ storage_ok o 2 = false) ∧
     messages d = messages (db st) ++ [m] ∧
     on_send_message castObjectId numberToString o sid data st = send_failed sid (set_db st d))
  ∨
  (* stored and fanned out *)
  (∃ m d, v = Some m ∧ storage_ok o 0 = true ∧ storage_ok o 1 = true ∧
     storage_ok o 2 = true ∧
     messages d = messages (db st) ++ [m] ∧ users d = users (db st) ∧
     on_send_message castObjectId numberToString o sid data st
     = Done {| state := set_db st d;
               out := [ {| recipients := room_sockets st chat;
                           event := new_message
                             (Message_findById_populated (_id m) d) |} ];
               log := [] |}).
Proof.
  intros Hs chat v. unfold on_send_message. rewrite Hs.
  destruct (destructurable data) eqn:Hd; simpl.
  2:{ left. split; [|reflexivity]. left. subst v chat.
      unfold Message_validate.
      destruct data; try discriminate Hd; simpl;
        destruct (cast_oid _ (JStr _)); reflexivity. }
  fold chat. fold v. destruct v as [m|] eqn:Hv; [|left; auto].
  destruct (storage_ok o 0) eqn:H0; simpl; [|left; auto].
  destruct (Message_validate_Some _ _ _ _ _ Hv) as (su & c & ch & _ & _ & _ & Hch & Hm).
  unfold Chat_findByIdAndUpdate. fold chat. rewrite Hch.
  set (d1 := set_messages (db st) (messages (db st) ++ [m])).
  set (d2 := set_chats d1 (alter (set_lastMessage (_id m) (now o)) ch (chats d1))).
  destruct (storage_ok o 1) eqn:H1.
  - destruct (storage_ok o 2) eqn:H2; simpl.
    + right. right. exists m, d2. now repeat split.
    + right. left. exists m, d2. repeat split; auto.
  - right. left. exists m, d1. repeat split; auto.
Qed.

(** When the payload's [chatId] is an ObjectId in its own textual form,
    the record is stored under the chat whose room the event goes to. *)
Lemma stored_chat_names_the_room
    (o : Oracle) (uid c : string) (content : JsVal) (m : Message) :
  castObjectId (JStr c) = Some c →
  Message_validate castObjectId numberToString o uid content (JStr c) = Some m →
  chatId m = c.
Proof.
  intros Hc Hv.
  destruct (Message_validate_Some _ _ _ _ _ Hv) as (su & x & ch & _ & _ & _ & Hch & ->).
  rewrite cast_oid_JStr, Hc in Hch. now injection Hch as <-.
Qed.

(** A [new_message] is emitted only after the Message was stored:
    whenever the handler emits one, the record passed validation, the
    [save()] call succeeded, the store holds exactly one record more
    (the new one, last), the payload carries the new record's [_id],
    and the emission is the only one and goes to the sockets in the
    room the payload's [chatId] names.  When validation and the three
    storage calls succeed, exactly one record is added and one
    [new_message] goes to every socket subscribed to that room, the
    sender's included, and to no other. *)
Theorem send_message_persists_then_fans_out
    (o : Oracle) (sid : string) (s : Socket) (data : JsVal) (st : State) :
  sockets st !! sid = Some s →
  let chat := prop "chatId" data in
  let v := Message_validate castObjectId numberToString o (userId s) (prop "content" data) chat in
  ∃ r, on_send_message castObjectId numberToString o sid data st = Done r ∧
    sockets (state r) = sockets st ∧
    (∀ e pm, e ∈ out r → event e = new_message pm →
       ∃ m, v = Some m ∧ storage_ok o 0 = true ∧
         messages (db (state r)) = messages (db st) ++ [m] ∧
         (∃ p, pm = Some p ∧ pm_id p = _id m) ∧
         out r = [e] ∧ recipients e = room_sockets st chat) ∧
    (∀ m, v = Some m → storage_ok o 0 = true → storage_ok o 1 = true →
       storage_ok o 2 = true →
       messages (db (state r)) = messages (db st) ++ [m] ∧
       ∃ e pm, out r = [e] ∧ event e = new_message (Some pm) ∧
         pm_id pm = _id m ∧
         ((∀ m', m' ∈ messages (db st) → _id m' ≠ fresh o) →
            pm = populated (db (state r)) m) ∧
         size (recipients e) = size (room_sockets st chat) ∧
         (∀ sid', sid' ∈ recipients e ↔
            ∃ s', sockets st !! sid' = Some s' ∧ in_room chat s' = true) ∧
         (in_room chat s = true → sid ∈ recipients e)).
Proof.
  intros Hs chat v.
  destruct (on_send_message_cases o sid s data st Hs)
    as [[Hno Hr] | [(m & d & Hv & H0 & Hlate & Hd & Hr) | (m & d & Hv & H0 & H1 & H2 & Hd & Hu & Hr)]];
    fold chat in Hr; fold chat v in Hv || fold chat v in Hno; rewrite Hr.
  - eexists. split; [reflexivity|]. split; [reflexivity|]. simpl. split.
    + intros e pm He Hev. apply list_elem_of_singleton in He. now subst e.
    + intros m Hm H0 _ _. destruct Hno; congruence.
  - eexists. split; [reflexivity|]. split; [reflexivity|]. simpl. split.
    + intros e pm He Hev. apply list_elem_of_singleton in He. now subst e.
    + intros m' _ _ H1 H2. destruct Hlate; congruence.
  - eexists. split; [reflexivity|]. split; [reflexivity|]. simpl.
    destruct (Message_validate_Some _ _ _ _ _ Hv) as (su & c & ch & _ & _ & _ & _ & Hm).
    assert (Hid : _id m = fresh o) by now subst m.
    destruct (find_last_added (_id m) (messages (db st)) m eq_refl)
      as (x & Hx & Hxid & Hfresh).
    assert (Hpop : Message_findById_populated (_id m) d = Some (populated d x)).
    { unfold Message_findById_populated. now rewrite Hd, Hx. }
    split.
    + intros e pm He Hev. apply list_elem_of_singleton in He. subst e.
      simpl in *. exists m. repeat split; try done.
      exists (populated d x). split; [congruence | exact Hxid].
    + intros m' Hm' _ _ _. assert (m' = m) by congruence. subst m'.
      split; [done|]. eexists _, (populated d x). simpl.
      split; [now rewrite Hpop|]. repeat split; try done.
      * intros Hall. rewrite Hfresh; [done|]. now rewrite Hid.
      * apply elem_of_room_sockets.
      * apply elem_of_room_sockets.
      * intros Hin. apply elem_of_room_sockets. eauto.
Qed.

(** ** [typing] and [read_message]: fan-out to the peers *)

Lemma on_read_message_cases
    (o : Oracle) (sid : string) (s : Socket) (data : JsVal) (st : State) :
  sockets st !! sid = Some s →
  let chat := prop "chatId" data in
  ((destructurable data = false ∨ storage_ok o 0 = false ∨
    read_filter castObjectId strictQuery operatorCondition (userId s) chat = None) ∧
   on_read_message castObjectId strictQuery operatorCondition o sid data st = read_failed sid st)
  ∨
  (∃ f, destructurable data = true ∧ storage_ok o 0 = true ∧
     read_filter castObjectId strictQuery operatorCondition (userId s) chat = Some f ∧
     on_read_message castObjectId strictQuery operatorCondition o sid data st
     = Done {| state := set_db st (set_messages (db st)
                          (Message_updateMany f (now o) (messages (db st))));
               out := [ {| recipients := room_peers st sid chat;
                           event := messages_read chat (userId s) |} ];
               log := [] |}).
Proof.
  intros Hs chat. unfold on_read_message. rewrite Hs. fold chat.
  destruct (destructurable data); simpl; [|left; auto].
  destruct (storage_ok o 0); [|left; auto].
  destruct (read_filter _ _ _ _) as [f|]; [|left; auto].
  right. exists f. auto.
Qed.


(** ** [disconnect] *)

(** C10: on the disconnect of a connected socket the user's
    [connectedUsers] entry is deleted whatever the storage call does;
    when the status write fails the handler returns normally, having
    logged the error, with the entry deleted, the store untouched and no
    event emitted: no [user_status] offline reaches any connection. *)
Theorem disconnect_write_failure_is_silent
    (o : Oracle) (sid : string) (s : Socket) (st : State) :
  sockets st !! sid = Some s →
  (∃ r, on_disconnect castObjectId o sid st = Done r ∧
     connectedUsers (state r) = delete (userId s) (connectedUsers st)) ∧
  (storage_ok o 0 = false →
     on_disconnect castObjectId o sid st
     = Done {| state := {| connectedUsers := delete (userId s) (connectedUsers st);
                           sockets := delete sid (sockets st);
                           db := db st |};
               out := [];
               log := ["User disconnected";
                       "Error updating user status on disconnect:"] |}).
Proof.
  intros Hs. split.
  - destruct (on_disconnect_registry o sid s st Hs) as (r & Hr & Hreg & _).
    eauto.
  - intros Hw. unfold on_disconnect. now rewrite Hs, Hw.
Qed.

(** ** [read_message]: which messages are marked *)

(** No stored message has a [receiver] path. *)
Lemma receiver_cond_never_matches (m : Message) (uid : string) :
  cond_matches m ("receiver", Is (FStr uid)) = false.
Proof. reflexivity. Qed.

Lemma chat_cond_is_id (m : Message) (c : string) :
  cond_matches m ("chatId", Is (FId c)) = true ↔ chatId m = c.
Proof.
  unfold cond_matches. simpl. rewrite bool_decide_eq_true.
  split; [now intros [= ->] | now intros ->].
Qed.

Lemma chat_cond_among (m : Message) (sel : string → bool) :
  cond_matches m ("chatId", Among sel) = sel (chatId m).
Proof. reflexivity. Qed.

Lemma read_cond_unread (m : Message) :
  cond_matches m ("read", Is (FBool false)) = true ↔ read m = false.
Proof.
  unfold cond_matches. simpl. rewrite bool_decide_eq_true.
  split; [now intros [= ->] | now intros ->].
Qed.

(** A value that is no operator object and casts to [c] asks for the
    chat [c]. *)
Lemma chat_condition_of_id (chat : JsVal) (c : string) :
  is_operator_object chat = false →
  cast_oid castObjectId chat = Val c →
  chat_condition castObjectId operatorCondition chat = Some (Is (FId c)).
Proof.
  intros Hop Hc. unfold chat_condition.
  destruct chat as [| |b|n|x|fs]; try (now rewrite Hc).
  rewrite Hop. unfold cast_oid in Hc. simpl in Hc.
  now destruct (castObjectId (JObj fs)) as [c'|]; [injection Hc as ->|].
Qed.

(** With [strictQuery] off the filter keeps its [receiver] condition and
    selects no message. *)
Lemma read_filter_loose_selects_nothing
    (uid : string) (chat : JsVal) (f : list (string * Cond)) (m : Message) :
  strictQuery = false →
  read_filter castObjectId strictQuery operatorCondition uid chat = Some f →
  filter_matches f m = false.
Proof.
  intros Hq. unfold read_filter. rewrite Hq.
  destruct (chat_condition _ _ chat) as [c|]; [|done]. intros [= <-].
  unfold filter_matches; cbn [forallb].
  rewrite receiver_cond_never_matches. apply andb_false_r.
Qed.

(** With [strictQuery] on the [receiver] condition is dropped and the
    filter selects the unread messages the chat condition accepts,
    whoever wrote them. *)
Lemma read_filter_strict_selects_all_unread
    (uid : string) (chat : JsVal) (f : list (string * Cond)) (m : Message) :
  strictQuery = true →
  read_filter castObjectId strictQuery operatorCondition uid chat = Some f →
  ∃ c, chat_condition castObjectId operatorCondition chat = Some c ∧
    (filter_matches f m = true ↔
     cond_matches m ("chatId", c) = true ∧ read m = false).
Proof.
  intros Hq. unfold read_filter. rewrite Hq.
  destruct (chat_condition _ _ chat) as [c|]; [|done]. intros [= <-].
  exists c. split; [done|]. unfold filter_matches. simpl.
  now rewrite andb_true_r, andb_true_iff, read_cond_unread.
Qed.

Lemma Message_updateMany_none (f : list (string * Cond)) (t : nat)
    (ms : list Message) :
  (∀ m, filter_matches f m = false) → Message_updateMany f t ms = ms.
Proof.
  intros Hf. unfold Message_updateMany.
  induction ms as [|m ms IH]; simpl; [done|]. now rewrite Hf, IH.
Qed.

(** With [strictQuery] off a [read_message] marks nothing. *)
Lemma on_read_message_loose_marks_nothing
    (o : Oracle) (sid : string) (data : JsVal) (st : State) (r : Result) :
  strictQuery = false →
  on_read_message castObjectId strictQuery operatorCondition o sid data st = Done r →
  messages (db (state r)) = messages (db st).
Proof.
  intros Hq. unfold on_read_message.
  destruct (sockets st !! sid) as [s|]; [|now intros [= <-]].
  destruct (negb (destructurable data)); [now intros [= <-]|].
  destruct (if storage_ok o 0 then _ else _) as [f|] eqn:Hf; [|now intros [= <-]].
  intros [= <-]. simpl. apply Message_updateMany_none.
  intros m. destruct (storage_ok o 0); [|done].
  eapply read_filter_loose_selects_nothing; eauto.
Qed.

End Properties.

(** * The sample deployment against the specification *)

(** C1: A reads [chat1], which holds one unread message of A's own and one
    of B's.  The specification wants B's message marked and A's left
    alone.  The
    handler filters on [receiver], a path [messageSchema] does not have:
    with [strictQuery] off no message is marked, with [strictQuery] on
    both are.  In neither case does the store end as specified. *)
Theorem read_message_marks_wrong_messages (strictQuery : bool) :
  ∃ r,
    on_read_message hexObjectId strictQuery sample_operators all_ok "s1" chat1_payload st_unread
    = Done r ∧
    markMessagesRead_spec chat1 uA 7 (messages (db st_unread))
    = [sample_message 1 uA "hello" false;
       set_read 7 (sample_message 2 uB "hi" false)] ∧
    messages (db (state r))
    = (if strictQuery
       then [set_read 7 (sample_message 1 uA "hello" false);
             set_read 7 (sample_message 2 uB "hi" false)]
       else [sample_message 1 uA "hello" false;
             sample_message 2 uB "hi" false]) ∧
    messages (db (state r))
    ≠ markMessagesRead_spec chat1 uA 7 (messages (db st_unread)).
Proof.
  destruct strictQuery; eexists; (split; [vm_compute; reflexivity|]);
    (split; [vm_compute; reflexivity|]);
    (split; [vm_compute; reflexivity|]); vm_compute; discriminate.
Qed.

(** C7: A, in [chat1] with B, sends a message whose [chatId] is the id of
    [chat1] written in upper case.  The record is stored under [chat1]
    and the [lastMessage] of [chat1] moves, as the cast id says; the
    [new_message] goes to the room named by the payload's string, which
    nobody joined: neither of the two sockets subscribed to [chat1]
    receives it. *)
Theorem send_message_misses_the_chat_room :
  bsonObjectId (JStr "0123456789ABCDEF01234567") = Some chat1 ∧
  room_sockets st_ABC (JStr chat1) = {[ "s1"; "s2" ]} ∧
  ∃ r pm,
    on_send_message bsonObjectId decimal all_ok "s1" shouted_payload st_ABC
    = Done r ∧
    messages (db (state r)) = [hello_message] ∧
    chatId hello_message = chat1 ∧
    lastMessage <$> chats (db (state r)) !! chat1 = Some (Some 1) ∧
    out r = [ {| recipients := ∅; event := new_message (Some pm) |} ] ∧
    pm_chatId pm = chat1.
Proof.
  split; [vm_compute; reflexivity|]. split; [vm_compute; reflexivity|].
  eexists _, _. split; [vm_compute; reflexivity|]. simpl.
  split; [vm_compute; reflexivity|]. split; [reflexivity|].
  split; [vm_compute; reflexivity|]. split; vm_compute; reflexivity.
Qed.

(** Against C2 as stated: A is connected as [s1] and registered under it; a
    second connection [s2] of A is accepted, [s1] stays connected, and A's
    entry now names [s2] only.  When [s2] then disconnects, [s1] is still
    connected and A has no entry at all. *)
Lemma second_device_overwrites_registry_entry :
  connectedUsers st_A !! uA = Some "s1" ∧
  (∃ r, connect sample_verify hexObjectId all_ok "s2" (JStr "token-A") st_A
        = (Accepted, r) ∧
        state r = st_AA ∧
        is_Some (sockets (state r) !! "s1") ∧
        connectedUsers (state r) !! uA = Some "s2") ∧
  (∃ r, on_disconnect hexObjectId all_ok "s2" st_AA = Done r ∧
        is_Some (sockets (state r) !! "s1") ∧
        connectedUsers (state r) !! uA = None).
Proof.
  split; [reflexivity|]. split.
  - eexists. split; [vm_compute; reflexivity|]. simpl.
    split; [reflexivity|]. split; [eexists|]; vm_compute; reflexivity.
  - eexists. split; [vm_compute; reflexivity|]. simpl.
    split; [eexists|]; vm_compute; reflexivity.
Qed.

(** Against C3 as stated: C's socket [s3] is not subscribed to [chat1], yet
    C's [send_message] to [chat1] is stored, moves the chat's
    [lastMessage] and is delivered to the two sockets of the room; no
    error event is emitted. *)
Lemma unsubscribed_sender_message_is_delivered :
  (∃ s, sockets st_ABC !! "s3" = Some s ∧ in_room (JStr chat1) s = false) ∧
  ∃ r, on_send_message hexObjectId decimal all_ok "s3" hello_payload st_ABC = Done r ∧
    messages (db (state r))
    = [ {| _id := 1; sender := uC; content := "hi"; chatId := chat1;
           read := false; createdAt := 7; updatedAt := 7 |} ] ∧
    lastMessage <$> chats (db (state r)) !! chat1 = Some (Some 1) ∧
    lastMessage <$> chats (db st_ABC) !! chat1 = Some None ∧
    ∃ pm, out r = [ {| recipients := {[ "s1"; "s2" ]};
                       event := new_message (Some pm) |} ] ∧
          pm_content pm = "hi".
Proof.
  split.
  - eexists. split; vm_compute; reflexivity.
  - eexists. split; [vm_compute; reflexivity|]. simpl.
    split; [vm_compute; reflexivity|].
    split; [vm_compute; reflexivity|].
    split; [vm_compute; reflexivity|].
    eexists. split; vm_compute; reflexivity.
Qed.

(** Against C4 as stated: A presents a token [jwt.verify] accepts; the
    status write fails; the connection is refused and nothing is
    registered. *)
Lemma valid_token_refused_when_status_write_fails :
  sample_verify "token-A" = Some uA ∧
  storage_ok write_fails 0 = false ∧
  ∃ r, connect sample_verify hexObjectId write_fails "s1" (JStr "token-A") st_empty
       = (Refused "Authentication error", r) ∧
       state r = st_empty ∧
       connectedUsers (state r) !! uA = None ∧
       sockets (state r) !! "s1" = None.
Proof.
  split; [reflexivity|]. split; [reflexivity|].
  eexists. split; [vm_compute; reflexivity|]. simpl.
  split; [reflexivity|]. split; reflexivity.
Qed.

(** Against C5 as stated: A is online through [s1]; A's second connection
    [s2] broadcasts [user_status] online again, and the disconnect of
    [s2], which leaves [s1] connected, broadcasts [user_status] offline. *)
Lemma presence_broadcast_without_transition :
  connectedUsers st_A !! uA = Some "s1" ∧
  status <$> users (db st_A) !! uA = Some online ∧
  (∃ r, connect sample_verify hexObjectId all_ok "s2" (JStr "token-A") st_A
        = (Accepted, r) ∧
        out r = [ {| recipients := {[ "s1"; "s2" ]};
                     event := user_status uA online |} ]) ∧
  (∃ r, on_disconnect hexObjectId all_ok "s2" st_AA = Done r ∧
        (∃ s, sockets (state r) !! "s1" = Some s ∧ userId s = uA) ∧
        out r = [ {| recipients := {[ "s1" ]};
                     event := user_status uA offline |} ]).
Proof.
  split; [reflexivity|]. split; [vm_compute; reflexivity|]. split.
  - eexists. split; [vm_compute; reflexivity|]. vm_compute. reflexivity.
  - eexists. split; [vm_compute; reflexivity|]. simpl. split.
    + eexists. split; vm_compute; reflexivity.
    + vm_compute. reflexivity.
Qed.

(** * The theorems at work on the sample deployment *)

(** A handshake without a token on the empty server. *)
Lemma connect_without_token_refused_witness :
  truthy JUndefined = false ∧
  connect sample_verify hexObjectId all_ok "s1" JUndefined st_empty
  = (Refused "Authentication error",
     {| state := st_empty; out := []; log := [] |}).
Proof.
  split; [reflexivity|].
  apply (connect_without_token_refused sample_verify hexObjectId all_ok "s1"
           JUndefined st_empty).
  reflexivity.
Defined.

(** A's token is good and the status write fails. *)
Lemma connect_status_write_failure_refused_witness :
  "token-A" ≠ "" ∧ sample_verify "token-A" = Some uA ∧
  storage_ok write_fails 0 = false ∧
  connect sample_verify hexObjectId write_fails "s1" (JStr "token-A") st_empty
  = (Refused "Authentication error",
     {| state := st_empty; out := [];
        log := ["Socket authentication error:"] |}).
Proof.
  assert (Hne : "token-A" ≠ "") by discriminate.
  split; [exact Hne|]. split; [reflexivity|]. split; [reflexivity|].
  apply (connect_status_write_failure_refused sample_verify hexObjectId
           write_fails "s1" "token-A" uA st_empty Hne);
    reflexivity.
Defined.

(** A emits [typing] with no argument. *)
Lemma typing_without_payload_exits_witness :
  sockets st_ABC !! "s1" = Some sock_s1 ∧ nullish JUndefined = true ∧
  on_typing "s1" JUndefined st_ABC = ProcessExit 1.
Proof.
  assert (Hs : sockets st_ABC !! "s1" = Some sock_s1) by (vm_compute; reflexivity).
  split; [exact Hs|]. split; [reflexivity|].
  apply (typing_without_payload_exits "s1" sock_s1 JUndefined st_ABC Hs).
  reflexivity.
Defined.

(** A sends an empty message to [chat1]. *)
Lemma send_message_empty_content_rejected_witness :
  sockets st_ABC !! "s1" = Some sock_s1 ∧
  prop "content" empty_payload = JStr "" ∧
  on_send_message hexObjectId decimal all_ok "s1" empty_payload st_ABC
  = Done {| state := st_ABC;
            out := [ {| recipients := {[ "s1" ]};
                        event := error "Failed to send message" |} ];
            log := ["Error sending message:"] |}.
Proof.
  assert (Hs : sockets st_ABC !! "s1" = Some sock_s1) by (vm_compute; reflexivity).
  split; [exact Hs|]. split; [reflexivity|].
  apply (send_message_empty_content_rejected hexObjectId decimal all_ok "s1" sock_s1
           empty_payload st_ABC Hs).
  reflexivity.
Defined.

(** A disconnects while the store is down: B and C hear nothing. *)
Lemma disconnect_write_failure_is_silent_witness :
  sockets st_ABC !! "s1" = Some sock_s1 ∧ storage_ok write_fails 0 = false ∧
  ∃ r, on_disconnect hexObjectId write_fails "s1" st_ABC = Done r ∧
    out r = [] ∧ db (state r) = db st_ABC ∧
    connectedUsers (state r) !! uA = None ∧
    connectedUsers (state r) !! uB = Some "s2".
Proof.
  assert (Hs : sockets st_ABC !! "s1" = Some sock_s1) by (vm_compute; reflexivity).
  split; [exact Hs|]. split; [reflexivity|].
  destruct (disconnect_write_failure_is_silent hexObjectId write_fails "s1"
              sock_s1 st_ABC Hs) as [_ Hfail].
  eexists. split; [apply Hfail; reflexivity|]. simpl.
  split; [reflexivity|]. split; [reflexivity|].
  split; vm_compute; reflexivity.
Defined.

(** A's second connection, and the disconnect of A's first one. *)
Lemma registry_one_entry_per_user_witness :
  (∃ r, connect sample_verify hexObjectId all_ok "s2" (JStr "token-A") st_A
        = (Accepted, r) ∧
        connectedUsers (state r) !! uA = Some "s2") ∧
  sockets st_AA !! "s1" = Some sock_s1 ∧
  (∃ r, on_disconnect hexObjectId all_ok "s1" st_AA = Done r ∧
        connectedUsers (state r) !! uA = None).
Proof.
  split; [|split].
  - destruct (registry_one_entry_per_user sample_verify hexObjectId all_ok
                "s2" st_A) as [Hc _].
    set (cr := connect sample_verify hexObjectId all_ok "s2" (JStr "token-A") st_A).
    assert (Hcr : cr = (Accepted, cr.2)) by (vm_compute; reflexivity).
    destruct (Hc _ _ Hcr) as (t & uid & Ht & Hv & Hreg & _).
    exists cr.2. split; [exact Hcr|].
    injection Ht as <-. vm_compute in Hv. injection Hv as <-. exact Hreg.
  - vm_compute; reflexivity.
  - assert (Hs : sockets st_AA !! "s1" = Some sock_s1) by (vm_compute; reflexivity).
    destruct (registry_one_entry_per_user sample_verify hexObjectId all_ok
                "s1" st_AA) as [_ Hd].
    destruct (Hd sock_s1 Hs) as (r & Hr & Hnone & _).
    exists r. split; [exact Hr | exact Hnone].
Defined.

(** A's second connection, and the disconnect of A's only one. *)
Lemma presence_broadcast_per_connection_witness :
  (∃ r, connect sample_verify hexObjectId all_ok "s2" (JStr "token-A") st_A
        = (Accepted, r) ∧
        out r = [ {| recipients := {[ "s1"; "s2" ]};
                     event := user_status uA online |} ]) ∧
  sockets st_A !! "s1" = Some sock_s1 ∧
  storage_ok all_ok 0 = true ∧
  hexObjectId (JStr uA) = Some uA ∧
  (∃ r, on_disconnect hexObjectId all_ok "s1" st_A = Done r ∧
        out r = [ {| recipients := ∅; event := user_status uA offline |} ] ∧
        status <$> users (db (state r)) !! uA = Some offline ∧
        lastSeen <$> users (db (state r)) !! uA = Some 7).
Proof.
  split; [|split; [|split; [|split]]].
  - destruct (presence_broadcast_per_connection sample_verify hexObjectId
                all_ok "s2" st_A) as [Hc _].
    set (cr := connect sample_verify hexObjectId all_ok "s2" (JStr "token-A") st_A).
    assert (Hcr : cr = (Accepted, cr.2)) by (vm_compute; reflexivity).
    destruct (Hc _ _ Hcr) as (t & uid & Ht & Hv & Hout).
    exists cr.2. split; [exact Hcr|]. rewrite Hout.
    injection Ht as <-. vm_compute in Hv. injection Hv as <-.
    vm_compute. reflexivity.
  - vm_compute; reflexivity.
  - reflexivity.
  - vm_compute; reflexivity.
  - assert (Hs : sockets st_A !! "s1" = Some sock_s1) by (vm_compute; reflexivity).
    assert (Hk : hexObjectId (JStr (userId sock_s1)) = Some uA)
      by (vm_compute; reflexivity).
    assert (Hu : users (db st_A) !! uA = Some (set_status_online (sample_user "A")))
      by (vm_compute; reflexivity).
    destruct (presence_broadcast_per_connection sample_verify hexObjectId
                all_ok "s1" st_A) as [_ Hd].
    destruct (Hd sock_s1 uA Hs eq_refl Hk) as (r & Hr & Hout & _ & Hseen).
    destruct (Hseen _ Hu) as (u' & Hu' & Hst & Hls & _).
    exists r. split; [exact Hr|]. rewrite Hout, Hu'. simpl. rewrite Hst, Hls.
    split; [vm_compute; reflexivity|]. split; reflexivity.
Defined.

(** A says hi in [chat1]: one record, delivered to A and B, not to C. *)
Lemma send_message_persists_then_fans_out_witness :
  sockets st_ABC !! "s1" = Some sock_s1 ∧
  ∃ r, on_send_message hexObjectId decimal all_ok "s1" hello_payload st_ABC = Done r ∧
    (∃ m, messages (db (state r)) = [m] ∧ content m = "hi" ∧ sender m = uA) ∧
    ∃ e pm, out r = [e] ∧ event e = new_message (Some pm) ∧ pm_id pm = 1 ∧
      size (recipients e) = 2 ∧ "s1" ∈ recipients e ∧ "s2" ∈ recipients e ∧
      "s3" ∉ recipients e.
Proof.
  assert (Hs : sockets st_ABC !! "s1" = Some sock_s1) by (vm_compute; reflexivity).
  split; [exact Hs|].
  destruct (send_message_persists_then_fans_out hexObjectId decimal all_ok "s1"
              sock_s1 hello_payload st_ABC Hs) as (r & Hr & _ & _ & Hok).
  set (m := {| _id := 1; sender := uA; content := "hi"; chatId := chat1;
               read := false; createdAt := 7; updatedAt := 7 |}).
  assert (Hv : Message_validate hexObjectId decimal all_ok (userId sock_s1)
                 (prop "content" hello_payload) (prop "chatId" hello_payload)
               = Some m) by (vm_compute; reflexivity).
  destruct (Hok m Hv eq_refl eq_refl eq_refl)
    as (Hms & e & pm & Hout & Hev & Hid & _ & Hsize & Hrec & Hself).
  exists r. split; [exact Hr|]. split.
  - exists m. rewrite Hms. repeat split.
  - exists e, pm. split; [exact Hout|]. split; [exact Hev|].
    split; [exact Hid|]. split; [rewrite Hsize; vm_compute; reflexivity|].
    split; [apply Hself; vm_compute; reflexivity|]. split.
    + apply Hrec. exists sock_s2. split; vm_compute; reflexivity.
    + intros Hin. apply Hrec in Hin. destruct Hin as (s' & Hs' & Hroom).
      vm_compute in Hs'. injection Hs' as <-. vm_compute in Hroom.
      discriminate Hroom.
Defined.


(** * Further properties of the handlers *)

Section Handlers.

Variable jwt_verify : string → option string.
Variable castObjectId : JsVal → option string.
Variable strictQuery : bool.
Variable numberToString : Z → string.
Variable operatorCondition : list (string * JsVal) → option (string → bool).

(** ** Connection *)

Lemma connect_refused_inv
    (o : Oracle) (sid : string) (token : JsVal) (st : State)
    (e : string) (r : Result) :
  connect jwt_verify castObjectId o sid token st = (Refused e, r) →
  e = "Authentication error" ∧ state r = st ∧ out r = [].
Proof.
  unfold connect.
  destruct (authenticate _ _ _ _ _) as [[uid d]|l]; [done|].
  now intros [= <- <-].
Qed.

(** A connection attempt is accepted exactly when the token is a
    non-empty string that [jwt.verify] accepts, the status write reaches
    the store and the user id casts to an ObjectId.  Every refusal carries
    "Authentication error", leaves the state as it was and emits
    nothing. *)
Theorem connect_accepted_iff
    (o : Oracle) (sid : string) (token : JsVal) (st : State) :
  ((∃ r, connect jwt_verify castObjectId o sid token st = (Accepted, r)) ↔
   ∃ t uid k, token = JStr t ∧ t ≠ "" ∧ jwt_verify t = Some uid ∧
     storage_ok o 0 = true ∧ castObjectId (JStr uid) = Some k) ∧
  (∀ e r, connect jwt_verify castObjectId o sid token st = (Refused e, r) →
     e = "Authentication error" ∧ state r = st ∧ out r = []).
Proof.
  split; [|intros e r; apply connect_refused_inv]. split.
  - intros [r Hr]. unfold connect, authenticate in Hr.
    destruct token as [| |b|n|t|fs]; simpl in Hr; try done.
    { now destruct b. }
    { now destruct (n =? 0)%Z. }
    destruct (String.eqb_spec t "") as [->|Ht]; [done|]. simpl in Hr.
    destruct (jwt_verify t) as [uid|] eqn:Hv; [|done].
    destruct (storage_ok o 0) eqn:Hs; [|done].
    unfold User_findByIdAndUpdate in Hr. rewrite cast_oid_JStr in Hr.
    destruct (castObjectId (JStr uid)) as [k|] eqn:Hk; [|done].
    exists t, uid, k. auto.
  - intros (t & uid & k & -> & Ht & Hv & Hs & Hk).
    unfold connect, authenticate. simpl.
    destruct (String.eqb_spec t "") as [->|_]; [done|]. simpl.
    rewrite Hv, Hs. unfold User_findByIdAndUpdate.
    rewrite cast_oid_JStr, Hk. eauto.
Qed.

Lemma connect_accepted_state
    (o : Oracle) (sid t uid k : string) (st : State) :
  t ≠ "" → jwt_verify t = Some uid → storage_ok o 0 = true →
  castObjectId (JStr uid) = Some k →
  connect jwt_verify castObjectId o sid (JStr t) st
  = (Accepted,
     on_connection castObjectId o sid uid
       {| connectedUsers := connectedUsers st;
          sockets := <[sid := {| userId := uid; rooms := {[sid]} |}]> (sockets st);
          db := set_users (db st) (alter set_status_online k (users (db st))) |}).
Proof.
  intros Ht Hv Hs Hk. unfold connect, authenticate. simpl.
  destruct (String.eqb_spec t "") as [->|_]; [done|]. simpl.
  rewrite Hv, Hs. unfold User_findByIdAndUpdate.
  now rewrite cast_oid_JStr, Hk.
Qed.

Lemma on_connection_db (o : Oracle) (sid uid : string) (st : State) :
  db (state (on_connection castObjectId o sid uid st)) = db st.
Proof.
  unfold on_connection. destruct (if storage_ok o 1 then _ else _); reflexivity.
Qed.

(** An accepted connection writes the status online on the user's record
    and changes nothing else in the store: no other user, no chat, no
    message.  When the user has no record, the store is unchanged and the
    connection is accepted all the same. *)
Theorem connect_marks_user_online
    (o : Oracle) (sid t uid k : string) (st : State) :
  t ≠ "" → jwt_verify t = Some uid → storage_ok o 0 = true →
  castObjectId (JStr uid) = Some k →
  ∃ r, connect jwt_verify castObjectId o sid (JStr t) st = (Accepted, r) ∧
    chats (db (state r)) = chats (db st) ∧
    messages (db (state r)) = messages (db st) ∧
    (∀ u, u ≠ k → users (db (state r)) !! u = users (db st) !! u) ∧
    (∀ rec, users (db st) !! k = Some rec →
       users (db (state r)) !! k
       = Some {| name := name rec; avatar := avatar rec; status := online;
                 lastSeen := lastSeen rec |}) ∧
    (users (db st) !! k = None → users (db (state r)) = users (db st)).
Proof.
  intros Ht Hv Hs Hk. eexists.
  split; [exact (connect_accepted_state o sid t uid k st Ht Hv Hs Hk)|].
  rewrite on_connection_db. simpl. repeat split.
  - intros u Hu. now apply lookup_alter_ne.
  - intros rec Hrec. now rewrite lookup_alter_eq, Hrec.
  - intros Hnone. apply map_eq. intros u.
    destruct (decide (u = k)) as [->|Hne].
    + now rewrite lookup_alter_eq, Hnone.
    + now apply lookup_alter_ne.
Qed.

Lemma Chat_find_participant_elem (uid k c : string) (d : DB) (cs : list string) :
  castObjectId (JStr uid) = Some k →
  Chat_find_participant castObjectId uid d = Some cs →
  c ∈ cs ↔ ∃ ch, chats d !! c = Some ch ∧ k ∈ participants ch.
Proof.
  intros Hk. unfold Chat_find_participant. rewrite cast_oid_JStr, Hk.
  intros [= <-]. rewrite list_elem_of_In, in_map_iff. split.
  - intros ([c' ch] & <- & Hin). apply list_elem_of_In in Hin.
    apply elem_of_map_to_list in Hin.
    apply map_lookup_filter_Some in Hin as [Hc Hp]. eauto.
  - intros (ch & Hc & Hp). exists (c, ch). split; [done|].
    apply list_elem_of_In, elem_of_map_to_list.
    apply map_lookup_filter_Some. auto.
Qed.

(** On an accepted connection whose room lookup succeeds, the new socket
    is subscribed to the room of its own id and to the room of every chat
    the user participates in, and to no other room; the sockets that were
    connected keep their subscriptions. *)
Theorem connection_joins_participant_chats
    (o : Oracle) (sid t uid k : string) (st : State) :
  t ≠ "" → jwt_verify t = Some uid → storage_ok o 0 = true →
  castObjectId (JStr uid) = Some k →
  storage_ok o 1 = true →
  ∃ r s', connect jwt_verify castObjectId o sid (JStr t) st = (Accepted, r) ∧
    sockets (state r) !! sid = Some s' ∧ userId s' = uid ∧
    (∀ c, c ∈ rooms s' ↔
       c = sid ∨ ∃ ch, chats (db st) !! c = Some ch ∧ k ∈ participants ch) ∧
    (∀ sid', sid' ≠ sid → sockets (state r) !! sid' = sockets st !! sid').
Proof.
  intros Ht Hv Hs Hk H1.
  rewrite (connect_accepted_state o sid t uid k st Ht Hv Hs Hk).
  unfold on_connection. rewrite H1. simpl.
  destruct (Chat_find_participant _ _ _) as [cs|] eqn:Hcs.
  2:{ unfold Chat_find_participant in Hcs. now rewrite cast_oid_JStr, Hk in Hcs. }
  eexists _, _. split; [reflexivity|]. simpl.
  rewrite lookup_alter_eq, lookup_insert_eq. simpl.
  split; [reflexivity|]. split; [reflexivity|]. split.
  - intros c. cbn [rooms].
    rewrite elem_of_union, elem_of_singleton, elem_of_list_to_set.
    now rewrite (Chat_find_participant_elem uid k c _ cs Hk Hcs).
  - intros sid' Hne. rewrite lookup_alter_ne, lookup_insert_ne; done.
Qed.

(** When the room lookup fails the connection is accepted all the same:
    the socket is registered and announced, the error is logged, and the
    socket is subscribed to the room of its own id only. *)
Theorem connection_survives_room_lookup_failure
    (o : Oracle) (sid t uid k : string) (st : State) :
  t ≠ "" → jwt_verify t = Some uid → storage_ok o 0 = true →
  castObjectId (JStr uid) = Some k →
  storage_ok o 1 = false →
  ∃ r, connect jwt_verify castObjectId o sid (JStr t) st = (Accepted, r) ∧
    sockets (state r) !! sid = Some {| userId := uid; rooms := {[sid]} |} ∧
    connectedUsers (state r) !! uid = Some sid ∧
    out r = [ {| recipients := {[sid]} ∪ dom (sockets st);
                 event := user_status uid online |} ] ∧
    log r = ["User connected"; "Error joining chat rooms:"].
Proof.
  intros Ht Hv Hs Hk H1.
  rewrite (connect_accepted_state o sid t uid k st Ht Hv Hs Hk).
  unfold on_connection. rewrite H1. simpl.
  eexists. split; [reflexivity|]. simpl. unfold all_sockets. simpl.
  rewrite !lookup_insert_eq, dom_insert_L. auto.
Qed.

(** ** What the event handlers leave alone *)

Lemma on_send_message_frame
    (o : Oracle) (sid : string) (data : JsVal) (st : State) (r : Result) :
  on_send_message castObjectId numberToString o sid data st = Done r →
  sockets (state r) = sockets st ∧ connectedUsers (state r) = connectedUsers st ∧
  users (db (state r)) = users (db st).
Proof.
  unfold on_send_message, send_failed, idle, Chat_findByIdAndUpdate.
  repeat case_match; intros [= <-]; simplify_eq; done.
Qed.

Lemma on_typing_frame (sid : string) (data : JsVal) (st : State) (r : Result) :
  on_typing sid data st = Done r → state r = st.
Proof.
  unfold on_typing, idle. repeat case_match; intros [= <-]; done.
Qed.

Lemma on_read_message_frame
    (o : Oracle) (sid : string) (data : JsVal) (st : State) (r : Result) :
  on_read_message castObjectId strictQuery operatorCondition o sid data st = Done r →
  sockets (state r) = sockets st ∧ connectedUsers (state r) = connectedUsers st ∧
  users (db (state r)) = users (db st) ∧ chats (db (state r)) = chats (db st).
Proof.
  unfold on_read_message, read_failed, idle.
  repeat case_match; intros [= <-]; done.
Qed.

(** No event handler changes who is connected, what a socket is
    subscribed to, the registry, or a user record: whatever
    [send_message], [typing] or [read_message] does, the sockets with
    their rooms, [connectedUsers] and the users of the store are as
    before. *)
Theorem event_handlers_keep_subscriptions
    (o : Oracle) (sid : string) (data : JsVal) (st : State) (r : Result) :
  on_send_message castObjectId numberToString o sid data st = Done r ∨
  on_typing sid data st = Done r ∨
  on_read_message castObjectId strictQuery operatorCondition o sid data st = Done r →
  sockets (state r) = sockets st ∧
  connectedUsers (state r) = connectedUsers st ∧
  users (db (state r)) = users (db st).
Proof.
  clear jwt_verify. intros [H|[H|H]].
  - now apply on_send_message_frame in H.
  - apply on_typing_frame in H. now rewrite H.
  - apply on_read_message_frame in H. tauto.
Qed.

(** ** Who receives events *)







(** ** The registry along a run *)

Lemma registry_sound_connect
    (o : Oracle) (sid : string) (token : JsVal) (st : State)
    (h : Handshake) (r : Result) :
  sockets st !! sid = None →
  connect jwt_verify castObjectId o sid token st = (h, r) →
  registry_sound st → registry_sound (state r).
Proof.
  intros Hfresh Hc Hinv. unfold connect in Hc.
  destruct (authenticate _ _ _ _ _) as [[uid d]|l]; [|now injection Hc as <- <-].
  injection Hc as <- <-. intros u s0.
  rewrite on_connection_registry. simpl. intros Hu.
  assert (Hsock : ∀ x sk, <[sid := {| userId := uid; rooms := {[sid]} |}]> (sockets st) !! x = Some sk →
            ∃ sk', sockets (state (on_connection castObjectId o sid uid
                      {| connectedUsers := connectedUsers st;
                         sockets := <[sid := {| userId := uid; rooms := {[sid]} |}]> (sockets st);
                         db := d |})) !! x = Some sk' ∧ userId sk' = userId sk).
  { intros x sk Hx. unfold on_connection.
    destruct (if storage_ok o 1 then _ else _); simpl; [|eauto].
    destruct (decide (x = sid)) as [->|Hne].
    - rewrite lookup_alter_eq, Hx. simpl. eauto.
    - rewrite lookup_alter_ne by done. eauto. }
  destruct (decide (u = uid)) as [->|Hne].
  - rewrite lookup_insert_eq in Hu. injection Hu as <-.
    destruct (Hsock sid _ (lookup_insert_eq _ _ _)) as (sk' & Hsk & Hid). eauto.
  - rewrite lookup_insert_ne in Hu by done.
    destruct (Hinv u s0 Hu) as (sk & Hsk & Hid).
    assert (s0 ≠ sid) by congruence.
    destruct (Hsock s0 sk) as (sk' & Hsk' & Hid'); [now rewrite lookup_insert_ne|].
    exists sk'. split; [done | congruence].
Qed.

Lemma registry_sound_disconnect
    (o : Oracle) (sid : string) (st : State) (r : Result) :
  on_disconnect castObjectId o sid st = Done r →
  registry_sound st → registry_sound (state r).
Proof.
  intros Hd Hinv. unfold on_disconnect in Hd.
  destruct (sockets st !! sid) as [s|] eqn:Hs; [|now injection Hd as <-].
  assert (Hst : connectedUsers (state r) = delete (userId s) (connectedUsers st) ∧
                sockets (state r) = delete sid (sockets st)).
  { destruct (if storage_ok o 0 then _ else _); now injection Hd as <-. }
  destruct Hst as [Hreg Hsock]. intros u s0. rewrite Hreg, Hsock.
  intros Hu. apply lookup_delete_Some in Hu as [Hne Hu].
  destruct (Hinv u s0 Hu) as (sk & Hsk & Hid).
  exists sk. split; [|done]. rewrite lookup_delete_ne; [done|].
  intros <-. congruence.
Qed.

Lemma connect_socket_after
    (o : Oracle) (sid : string) (token : JsVal) (st : State) (r : Result) :
  sockets st !! sid = None →
  connect jwt_verify castObjectId o sid token st = (Accepted, r) →
  ∃ t uid sk, token = JStr t ∧ jwt_verify t = Some uid ∧
    connectedUsers (state r) = <[uid := sid]> (connectedUsers st) ∧
    sockets (state r) !! sid = Some sk ∧ userId sk = uid ∧
    delete sid (sockets (state r)) = sockets st ∧
    out r = [ {| recipients := {[sid]} ∪ dom (sockets st);
                 event := user_status uid online |} ].
Proof.
  intros Hfresh Hc.
  destruct (connect_accepted_inv _ _ _ _ _ _ _ Hc) as (t & uid & d & -> & Hv & _ & _ & ->).
  exists t, uid. rewrite on_connection_registry, on_connection_out. simpl.
  rewrite dom_insert_L.
  unfold on_connection. destruct (if storage_ok o 1 then _ else _); simpl.
  - rewrite lookup_alter_eq, lookup_insert_eq. simpl. eexists.
    repeat split; try done.
    rewrite delete_alter_eq, delete_insert_eq. now apply delete_id.
  - rewrite lookup_insert_eq. eexists. repeat split; try done.
    rewrite delete_insert_eq. now apply delete_id.
Qed.

Lemma listening_step_registry_sound (st st' : State) :
  listening_step jwt_verify castObjectId strictQuery numberToString
    operatorCondition st st' →
  registry_sound st → registry_sound st'.
Proof.
  intros Hstep Hinv.
  destruct Hstep as [o sid token h r Hf Hc|o sid data r H|sid data r H|o sid data r H|o sid r H].
  - eapply registry_sound_connect; eauto.
  - apply on_send_message_frame in H as (Hs & Hr & _).
    unfold registry_sound. now rewrite Hs, Hr.
  - apply on_typing_frame in H. now rewrite H.
  - apply on_read_message_frame in H as (Hs & Hr & _).
    unfold registry_sound. now rewrite Hs, Hr.
  - eapply registry_sound_disconnect; eauto.
Qed.

(** As long as every socket stays until its listeners are registered, the
    registry never names a stale socket: if every [connectedUsers] entry
    names a connected socket of its user, the same holds after any run of
    connection attempts (with socket ids not in use), events and
    disconnects of listening sockets.  A socket that closes before its
    listeners are registered breaks this: its entry stays and names a
    socket that is gone. *)
Theorem registry_sound_while_listening (st st' : State) :
  (registry_sound st →
   rtc (listening_step jwt_verify castObjectId strictQuery numberToString
          operatorCondition) st st' →
   registry_sound st') ∧
  (∀ o sid token r,
     sockets st !! sid = None →
     connect jwt_verify castObjectId o sid token st = (Accepted, r) →
     step jwt_verify castObjectId strictQuery numberToString
       operatorCondition st (state (leave_before_listening sid r)) ∧
     ¬ registry_sound (state (leave_before_listening sid r))).
Proof.
  split.
  - intros Hinv Hrun. induction Hrun as [|st st1 st2 Hstep _ IH]; [done|].
    apply IH. eapply listening_step_registry_sound; eauto.
  - intros o sid token r Hfresh Hc.
    split; [exact (step_leave_early _ _ _ _ _ st o sid token r Hfresh Hc)|].
    destruct (connect_socket_after o sid token st r Hfresh Hc)
      as (t & uid & sk & _ & _ & Hreg & _).
    intros Hsound. destruct (Hsound uid sid) as (s & Hs & _).
    + simpl. rewrite Hreg. apply lookup_insert_eq.
    + simpl in Hs. now rewrite lookup_delete_eq in Hs.
Qed.

(** Disconnecting undoes connecting only when the socket was heard.  For
    a socket id not in use and a user without an entry: when the socket
    leaves after its listeners are registered, the [disconnect] handler
    gives back the registry and the sockets there were; when it leaves
    before, no handler runs, the user's entry stays and names the gone
    socket, the store keeps what the connection wrote, and the only
    announcement made is the online one. *)
Theorem disconnect_undoes_connect_only_when_heard
    (o o' : Oracle) (sid t uid : string) (st : State) (r : Result) :
  sockets st !! sid = None →
  jwt_verify t = Some uid →
  connectedUsers st !! uid = None →
  connect jwt_verify castObjectId o sid (JStr t) st = (Accepted, r) →
  (∃ r', on_disconnect castObjectId o' sid (state r) = Done r' ∧
     connectedUsers (state r') = connectedUsers st ∧
     sockets (state r') = sockets st) ∧
  (connectedUsers (state (leave_before_listening sid r)) !! uid = Some sid ∧
   sockets (state (leave_before_listening sid r)) = sockets st ∧
   db (state (leave_before_listening sid r)) = db (state r) ∧
   out (leave_before_listening sid r)
   = [ {| recipients := {[sid]} ∪ dom (sockets st);
          event := user_status uid online |} ]).
Proof.
  intros Hfresh Hv Hnone Hc.
  destruct (connect_socket_after o sid (JStr t) st r Hfresh Hc)
    as (t' & uid' & sk & [= <-] & Hv' & Hreg & Hsk & Hid & Hdel & Hout).
  assert (Hu : uid' = uid) by congruence.
  rewrite Hu in Hreg, Hid, Hout. clear Hu Hv'. split.
  - destruct (on_disconnect_registry castObjectId o' sid sk _ Hsk)
      as (r' & Hr' & Hreg' & Hs').
    exists r'. split; [done|]. rewrite Hreg', Hs', Hdel, Hid, Hreg.
    rewrite delete_insert_eq. split; [|done]. now apply delete_id.
  - simpl. rewrite Hreg, Hdel, Hout. rewrite lookup_insert_eq. done.
Qed.

(** ** [send_message] and the store *)

(** A storage failure after the [save()] leaves the message stored: the
    originator gets the error event, nobody gets a [new_message], and the
    new record stays in the store, last.  When it is the [lastMessage]
    update that fails the chats are as before; when it is the final
    [findById], the chat's [lastMessage] already names the record. *)
Theorem send_message_late_failure_keeps_message
    (o : Oracle) (sid : string) (s : Socket) (data : JsVal) (st : State)
    (m : Message) :
  sockets st !! sid = Some s →
  Message_validate castObjectId numberToString o (userId s) (prop "content" data)
    (prop "chatId" data) = Some m →
  storage_ok o 0 = true →
  storage_ok o 1 = false ∨ storage_ok o 2 = false →
  ∃ r, on_send_message castObjectId numberToString o sid data st = Done r ∧
    out r = [ {| recipients := {[sid]};
                 event := error "Failed to send message" |} ] ∧
    messages (db (state r)) = messages (db st) ++ [m] ∧
    (storage_ok o 1 = false → chats (db (state r)) = chats (db st)) ∧
    (storage_ok o 1 = true →
       chats (db (state r))
       = alter (set_lastMessage (_id m) (now o)) (chatId m) (chats (db st))).
Proof.
  intros Hs Hv H0 Hlate.
  destruct (Message_validate_Some _ _ _ _ _ _ _ Hv) as (su & c & ch & _ & Hc & Hne & Hch & Hm).
  assert (Hd : destructurable data = true).
  { destruct data; try reflexivity; simpl in Hc; discriminate Hc. }
  unfold on_send_message. rewrite Hs, Hd, Hv, H0. simpl.
  unfold Chat_findByIdAndUpdate. rewrite Hch.
  destruct (storage_ok o 1) eqn:H1.
  - destruct Hlate as [|H2]; [done|]. rewrite H2. simpl.
    eexists. split; [reflexivity|]. simpl. subst m. simpl.
    repeat split; done.
  - eexists. split; [reflexivity|]. simpl. repeat split; done.
Qed.

(** A successful [send_message] moves the [lastMessage] of the chat it
    was stored under and of no other chat, keeps that chat's
    participants, and never creates a chat: when no chat has that id, the
    record is stored and the set of chats is unchanged. *)
Theorem send_message_moves_only_target_pointer
    (o : Oracle) (sid : string) (s : Socket) (data : JsVal) (st : State)
    (m : Message) :
  sockets st !! sid = Some s →
  Message_validate castObjectId numberToString o (userId s) (prop "content" data)
    (prop "chatId" data) = Some m →
  storage_ok o 0 = true → storage_ok o 1 = true → storage_ok o 2 = true →
  ∃ r, on_send_message castObjectId numberToString o sid data st = Done r ∧
    messages (db (state r)) = messages (db st) ++ [m] ∧
    dom (chats (db (state r))) = dom (chats (db st)) ∧
    (∀ c, c ≠ chatId m → chats (db (state r)) !! c = chats (db st) !! c) ∧
    (∀ ch, chats (db st) !! chatId m = Some ch →
       chats (db (state r)) !! chatId m
       = Some {| participants := participants ch; lastMessage := Some (_id m);
                 isGroup := isGroup ch; chat_updatedAt := now o |}) ∧
    (chats (db st) !! chatId m = None → chats (db (state r)) = chats (db st)).
Proof.
  intros Hs Hv H0 H1 H2.
  destruct (Message_validate_Some _ _ _ _ _ _ _ Hv) as (su & c & ch & _ & Hc & Hne & Hch & Hm).
  assert (Hd : destructurable data = true).
  { destruct data; try reflexivity; simpl in Hc; discriminate Hc. }
  unfold on_send_message. rewrite Hs, Hd, Hv, H0, H1, H2. simpl.
  unfold Chat_findByIdAndUpdate. rewrite Hch.
  eexists. split; [reflexivity|]. simpl.
  assert (Hcm : chatId m = ch) by now subst m. rewrite Hcm.
  split; [done|]. split; [apply dom_alter_L|]. split; [|split].
  - intros c' Hc'. now apply lookup_alter_ne.
  - intros x Hx. now rewrite lookup_alter_eq, Hx.
  - intros Hnone. apply map_eq. intros c'.
    destruct (decide (c' = ch)) as [->|Hc'].
    + now rewrite lookup_alter_eq, Hnone.
    + now apply lookup_alter_ne.
Qed.

(** ** [read_message] and the store *)

Lemma read_filter_selects_unread
    (uid : string) (chat : JsVal) (f : list (string * Cond)) (m : Message) :
  read_filter castObjectId strictQuery operatorCondition uid chat = Some f →
  filter_matches f m = true → read m = false.
Proof.
  intros Hf. destruct strictQuery eqn:Hq.
  - intros Hm. rewrite <- Hq in Hf.
    destruct (read_filter_strict_selects_all_unread castObjectId strictQuery
                operatorCondition uid chat f m Hq Hf) as (c & _ & Hiff).
    now apply Hiff in Hm.
  - rewrite <- Hq in Hf.
    now rewrite (read_filter_loose_selects_nothing castObjectId strictQuery operatorCondition
                   uid chat f m Hq Hf).
Qed.

Lemma Message_updateMany_Forall2
    (f : list (string * Cond)) (t : nat) (ms : list Message) :
  (∀ m, filter_matches f m = true → read m = false) →
  Forall2 (same_or_marked t) ms (Message_updateMany f t ms).
Proof.
  intros Hf. unfold Message_updateMany.
  induction ms as [|m ms IH]; simpl; constructor; [|done].
  destruct (filter_matches f m) eqn:Hm; [right | left]; auto.
Qed.

Lemma Forall2_same (t : nat) (ms : list Message) :
  Forall2 (same_or_marked t) ms ms.
Proof. induction ms; constructor; [now left | done]. Qed.

(** A [read_message] rewrites no message: the store holds the same
    records in the same order, and each is either untouched or was unread
    and differs only in [read], now true, and [updatedAt], the time of the
    update.  So ids, senders, contents and chats are kept, no record is
    added or dropped, and a message that was read stays as it was. *)
Theorem read_message_touches_only_read_flag
    (o : Oracle) (sid : string) (data : JsVal) (st : State) (r : Result) :
  on_read_message castObjectId strictQuery operatorCondition o sid data st = Done r →
  Forall2 (same_or_marked (now o)) (messages (db st)) (messages (db (state r))) ∧
  length (messages (db (state r))) = length (messages (db st)) ∧
  (∀ i m, messages (db st) !! i = Some m → read m = true →
     messages (db (state r)) !! i = Some m).
Proof.
  intros Hr.
  assert (HF : Forall2 (same_or_marked (now o)) (messages (db st))
                 (messages (db (state r)))).
  { revert Hr. unfold on_read_message, read_failed, idle.
    destruct (sockets st !! sid) as [s|]; [|intros [= <-]; apply Forall2_same].
    destruct (negb (destructurable data)); [intros [= <-]; apply Forall2_same|].
    destruct (storage_ok o 0); [|intros [= <-]; apply Forall2_same].
    destruct (read_filter _ _ _ _) as [f|] eqn:Hf;
      [|intros [= <-]; apply Forall2_same].
    intros [= <-]. simpl. apply Message_updateMany_Forall2.
    intros m. eapply read_filter_selects_unread; eauto. }
  split; [done|]. split; [symmetry; eapply Forall2_length; eauto|].
  intros i m Hi Hread.
  destruct (Forall2_lookup_l _ _ _ _ _ HF Hi) as (m' & Hi' & [->|[Hu _]]);
    [done | congruence].
Qed.

Lemma Message_updateMany_twice
    (f : list (string * Cond)) (t t' : nat) (ms : list Message) :
  In ("read", Is (FBool false)) f →
  Message_updateMany f t' (Message_updateMany f t ms) = Message_updateMany f t ms.
Proof.
  intros Hin. unfold Message_updateMany. rewrite map_map. apply map_ext.
  intros m. destruct (filter_matches f m) eqn:Hm; [|now rewrite Hm].
  assert (Hno : filter_matches f (set_read t m) = false); [|now rewrite Hno].
  unfold filter_matches. apply not_true_iff_false. intros Hall.
  rewrite forallb_forall in Hall. specialize (Hall _ Hin). discriminate Hall.
Qed.

Lemma read_filter_has_read_cond
    (uid : string) (chat : JsVal) (f : list (string * Cond)) :
  read_filter castObjectId strictQuery operatorCondition uid chat = Some f →
  In ("read", Is (FBool false)) f.
Proof.
  unfold read_filter.
  destruct strictQuery, (chat_condition _ _ _); try done; intros [= <-];
    simpl; auto.
Qed.

(** Reading twice is reading once: after a [read_message] whose update
    reached the store, the same event on the same socket changes no
    message, at whatever time it runs and whether or not its own update
    reaches the store. *)
Theorem read_message_idempotent
    (o o' : Oracle) (sid : string) (data : JsVal) (st : State) (r r' : Result) :
  storage_ok o 0 = true →
  on_read_message castObjectId strictQuery operatorCondition o sid data st = Done r →
  on_read_message castObjectId strictQuery operatorCondition o' sid data (state r) = Done r' →
  messages (db (state r')) = messages (db (state r)).
Proof.
  intros H0 Hr Hr'.
  pose proof (on_read_message_frame _ _ _ _ _ Hr) as (Hsock & _).
  revert Hr Hr'. unfold on_read_message. rewrite Hsock, H0.
  destruct (sockets st !! sid) as [s|]; [|intros [= <-] [= <-]; done].
  unfold read_failed.
  destruct (negb (destructurable data)); [intros [= <-] [= <-]; done|].
  destruct (read_filter _ _ _ _) as [f|] eqn:Hf.
  2:{ intros [= <-]. destruct (storage_ok o' 0); intros [= <-]; done. }
  intros [= <-]. destruct (storage_ok o' 0); intros [= <-]; [|done]. simpl.
  apply Message_updateMany_twice. eapply read_filter_has_read_cond; eauto.
Qed.

Lemma cond_matches_set_read (t : nat) (m : Message) (c : Cond) :
  cond_matches (set_read t m) ("chatId", c) = cond_matches m ("chatId", c).
Proof. reflexivity. Qed.

(** With [strictQuery] on, a [read_message] whose update reaches the store
    marks every unread message that the payload's [chatId] selects,
    whoever wrote it, and no other message; afterwards no selected message
    is unread.  When [chatId] is an id, the messages of other chats are
    left as they were; when it is an operator object, the messages of
    every chat it selects are marked. *)
Theorem read_message_strict_marks_selected_chats
    (o : Oracle) (sid : string) (s : Socket) (data : JsVal) (st : State)
    (cond : Cond) :
  strictQuery = true →
  sockets st !! sid = Some s →
  nullish data = false →
  storage_ok o 0 = true →
  chat_condition castObjectId operatorCondition (prop "chatId" data) = Some cond →
  ∃ r, on_read_message castObjectId strictQuery operatorCondition o sid data st
       = Done r ∧
    messages (db (state r))
    = map (λ m, if cond_matches m ("chatId", cond) && negb (read m)
                then set_read (now o) m else m) (messages (db st)) ∧
    (∀ m, m ∈ messages (db (state r)) →
       cond_matches m ("chatId", cond) = true → read m = true) ∧
    (∀ c, cond = Is (FId c) →
       ∀ i m, messages (db st) !! i = Some m → chatId m ≠ c →
         messages (db (state r)) !! i = Some m) ∧
    (∀ sel, cond = Among sel →
       ∀ m, m ∈ messages (db (state r)) → sel (chatId m) = true →
         read m = true).
Proof.
  intros Hq Hs Hd H0 Hc.
  unfold on_read_message, destructurable. rewrite Hs, Hd, H0. simpl.
  destruct (read_filter _ _ _ _ _) as [f|] eqn:Hf.
  2:{ unfold read_filter in Hf. now rewrite Hc in Hf. }
  eexists. split; [reflexivity|]. simpl.
  assert (Hsel : ∀ m, filter_matches f m
                      = cond_matches m ("chatId", cond) && negb (read m)).
  { intros m. apply eq_true_iff_eq.
    destruct (read_filter_strict_selects_all_unread castObjectId strictQuery
                operatorCondition _ _ f m Hq Hf) as (c & Hc' & Hiff).
    assert (c = cond) by congruence. subst c.
    now rewrite Hiff, andb_true_iff, negb_true_iff. }
  assert (Hms : Message_updateMany f (now o) (messages (db st))
                = map (λ m, if cond_matches m ("chatId", cond) && negb (read m)
                            then set_read (now o) m else m) (messages (db st))).
  { unfold Message_updateMany. apply map_ext. intros m. now rewrite Hsel. }
  assert (Hall : ∀ m, m ∈ Message_updateMany f (now o) (messages (db st)) →
                   cond_matches m ("chatId", cond) = true → read m = true).
  { intros m' Hin Hm'. unfold Message_updateMany in Hin.
    apply list_elem_of_In, in_map_iff in Hin as (m & <- & _).
    rewrite Hsel in *.
    destruct (cond_matches m ("chatId", cond)) eqn:Hcm; simpl in *.
    - destruct (read m) eqn:Hrd; simpl; done.
    - congruence. }
  split; [exact Hms|]. split; [exact Hall|]. split.
  - intros c -> i m Hi Hne. rewrite Hms, list_lookup_fmap, Hi. simpl.
    destruct (cond_matches m ("chatId", Is (FId c))) eqn:Hcm; [|done].
    now apply chat_cond_is_id in Hcm.
  - intros sel -> m Hin Hm. apply Hall; [done|]. now rewrite chat_cond_among.
Qed.

(** With [strictQuery] off, a [read_message] whose update reaches the
    store changes nothing in it, not one message, and announces
    [messages_read] to the other sockets of the room all the same. *)
Theorem read_message_loose_announces_without_marking
    (o : Oracle) (sid : string) (s : Socket) (data : JsVal) (st : State) :
  strictQuery = false →
  sockets st !! sid = Some s →
  nullish data = false →
  storage_ok o 0 = true →
  chat_condition castObjectId operatorCondition (prop "chatId" data) ≠ None →
  ∃ r, on_read_message castObjectId strictQuery operatorCondition o sid data st = Done r ∧
    messages (db (state r)) = messages (db st) ∧
    chats (db (state r)) = chats (db st) ∧
    users (db (state r)) = users (db st) ∧
    out r = [ {| recipients := room_peers st sid (prop "chatId" data);
                 event := messages_read (prop "chatId" data) (userId s) |} ].
Proof.
  intros Hq Hs Hd H0 Hc.
  destruct (on_read_message_cases castObjectId strictQuery operatorCondition o sid s data st Hs)
    as [[Hno Hr]|(f & _ & _ & Hf & Hr)].
  - exfalso. destruct Hno as [Hno|[Hno|Hno]].
    + unfold destructurable in Hno. now rewrite Hd in Hno.
    + congruence.
    + unfold read_filter in Hno. now destruct (chat_condition _ _ _).
  - exists {| state := set_db st (set_messages (db st)
                 (Message_updateMany f (now o) (messages (db st))));
              out := [ {| recipients := room_peers st sid (prop "chatId" data);
                          event := messages_read (prop "chatId" data) (userId s) |} ];
              log := [] |}.
    split; [exact Hr|]. split; [|done].
    exact (on_read_message_loose_marks_nothing castObjectId strictQuery operatorCondition o sid
             data st _ Hq Hr).
Qed.

(** ** [typing] without a room *)

Lemma room_sockets_not_a_name (st : State) (room : JsVal) :
  (∀ n, room ≠ JStr n) → room_sockets st room = ∅.
Proof.
  intros Hn. apply elem_of_equiv_empty_L. intros x Hx.
  apply elem_of_room_sockets in Hx as (s & _ & Hin).
  destruct room; try discriminate Hin. now eapply Hn.
Qed.

(** A [typing] event whose payload has no string [chatId] (a number, a
    string or a boolean as payload, or an object without the field) is
    swallowed: the handler returns, the state is unchanged, the one event
    it emits reaches nobody, and no error event is sent. *)
Theorem typing_without_room_reaches_nobody
    (sid : string) (s : Socket) (data : JsVal) (st : State) :
  sockets st !! sid = Some s →
  nullish data = false →
  (∀ n, prop "chatId" data ≠ JStr n) →
  on_typing sid data st
  = Done {| state := st;
            out := [ {| recipients := ∅;
                        event := typing (prop "chatId" data)
                                        (prop "isTyping" data) |} ];
            log := [] |}.
Proof.
  intros Hs Hd Hn. unfold on_typing, destructurable. rewrite Hs, Hd. simpl.
  unfold room_peers. rewrite (room_sockets_not_a_name st _ Hn).
  now rewrite difference_disjoint_L by set_solver.
Qed.

End Handlers.


(** * Properties of the chat routes *)

Global Instance older_first_trans : Transitive older_first.
Proof. intros a b c. unfold older_first. lia. Qed.

Global Instance older_first_total : Total older_first.
Proof. intros a b. unfold older_first. lia. Qed.

Global Instance newer_chat_first_trans : Transitive newer_chat_first.
Proof. intros a b c. unfold newer_chat_first. lia. Qed.

Global Instance newer_chat_first_total : Total newer_chat_first.
Proof. intros a b. unfold newer_chat_first. lia. Qed.

Section RouteProperties.

Variable castObjectId : JsVal → option string.
Variable strictQuery : bool.
Variable numberToString : Z → string.
Variable operatorCondition : list (string * JsVal) → option (string → bool).

(** ** [GET /:chatId/messages] *)

Lemma Chat_findOne_participant_Some (c k : string) (d : DB) (ch : Chat) :
  Chat_findOne_participant c k d = Some ch ↔
  chats d !! c = Some ch ∧ k ∈ participants ch.
Proof.
  unfold Chat_findOne_participant.
  destruct (chats d !! c) as [x|]; [|split; [done | intros [? _]; done]].
  case_bool_decide as Hin; split.
  - now intros [= ->].
  - now intros [[= ->] _].
  - done.
  - now intros [[= ->] ?].
Qed.

(** Messages are served to participants only: a response that carries
    messages has status 200 and was asked for by a participant of an
    existing chat.  When the [chatId] parameter and the caller's id are
    ObjectIds and the store answers, a chat that does not exist, or does
    not list the caller, gives 404 "Chat not found".  A [chatId] parameter
    that is no ObjectId gives 500 "Server error". *)
Theorem get_messages_only_for_participants
    (o : Oracle) (uid chatParam : string) (d : DB) :
  (∀ js, body (get_messages castObjectId o uid chatParam d) = BMessages js →
     code (get_messages castObjectId o uid chatParam d) = 200 ∧
     ∃ c k ch, castObjectId (JStr chatParam) = Some c ∧
       castObjectId (JStr uid) = Some k ∧
       chats d !! c = Some ch ∧ k ∈ participants ch) ∧
  (∀ c k, castObjectId (JStr chatParam) = Some c →
     castObjectId (JStr uid) = Some k →
     storage_ok o 0 = true →
     (∀ ch, chats d !! c = Some ch → k ∉ participants ch) →
     get_messages castObjectId o uid chatParam d
     = {| code := 404; body := BError "Chat not found" |}) ∧
  (castObjectId (JStr chatParam) = None →
     get_messages castObjectId o uid chatParam d
     = {| code := 500; body := BError "Server error" |}).
Proof.
  split; [|split].
  - intros js. unfold get_messages. rewrite !cast_oid_JStr.
    destruct (castObjectId (JStr chatParam)) as [c|]; [|done].
    destruct (castObjectId (JStr uid)) as [k|]; [|done].
    destruct (negb (storage_ok o 0)); [done|].
    destruct (Chat_findOne_participant c k d) as [ch|] eqn:Hch; [|done].
    destruct (negb (storage_ok o 1)); [done|]. intros _. split; [done|].
    apply Chat_findOne_participant_Some in Hch as [Hch Hin].
    exists c, k, ch. auto.
  - intros c k Hc Hk H0 Hno. unfold get_messages.
    rewrite !cast_oid_JStr, Hc, Hk, H0. simpl.
    destruct (Chat_findOne_participant c k d) as [ch|] eqn:Hch; [|done].
    apply Chat_findOne_participant_Some in Hch as [Hch Hin].
    now destruct (Hno ch Hch).
  - intros Hc. unfold get_messages. now rewrite !cast_oid_JStr, Hc.
Qed.

(** A participant gets the history of the chat: exactly the messages
    stored under the chat, each once, oldest first, each with a
    [timestamp] equal to its [createdAt]. *)
Theorem get_messages_returns_sorted_history
    (o : Oracle) (uid chatParam c k : string) (ch : Chat) (d : DB) :
  castObjectId (JStr chatParam) = Some c →
  castObjectId (JStr uid) = Some k →
  chats d !! c = Some ch → k ∈ participants ch →
  storage_ok o 0 = true → storage_ok o 1 = true →
  ∃ js, get_messages castObjectId o uid chatParam d
        = {| code := 200; body := BMessages js |} ∧
    js ≡ₚ Message_toJSON <$>
            List.filter (λ m, String.eqb (chatId m) c) (messages d) ∧
    StronglySorted (λ a b, j_createdAt a ≤ j_createdAt b) js ∧
    (∀ j, j ∈ js ↔
       ∃ m, m ∈ messages d ∧ chatId m = c ∧ j = Message_toJSON m) ∧
    Forall (λ j, j_timestamp j = j_createdAt j) js.
Proof.
  intros Hc Hk Hch Hin H0 H1. unfold get_messages.
  rewrite !cast_oid_JStr, Hc, Hk, H0, H1. simpl.
  assert (Hf : Chat_findOne_participant c k d = Some ch)
    by now apply Chat_findOne_participant_Some.
  rewrite Hf. eexists. split; [reflexivity|].
  set (l := List.filter (λ m, String.eqb (chatId m) c) (messages d)).
  assert (Hperm : Message_toJSON <$> merge_sort older_first l ≡ₚ Message_toJSON <$> l)
    by now rewrite merge_sort_Permutation.
  split; [exact Hperm|]. split; [|split].
  - apply (StronglySorted_fmap _ older_first); [done|].
    apply StronglySorted_merge_sort; apply _.
  - intros j. rewrite Hperm, list_elem_of_fmap. split.
    + intros (m & -> & Hm). exists m. subst l.
      apply list_elem_of_In, filter_In in Hm as [Hm He].
      apply String.eqb_eq in He. now rewrite list_elem_of_In.
    + intros (m & Hm & He & ->). exists m. split; [done|]. subst l.
      apply list_elem_of_In, filter_In. rewrite <- list_elem_of_In.
      split; [done|]. now apply String.eqb_eq.
  - apply Forall_fmap, Forall_forall. now intros m _.
Qed.

(** ** [POST /]: find or create a direct chat *)

Lemma Chat_findOne_direct_Some (k p c : string) (ch : Chat) (d : DB) :
  Chat_findOne_direct k p d = Some (c, ch) →
  chats d !! c = Some ch ∧ is_direct_of k p ch = true.
Proof.
  unfold Chat_findOne_direct. intros H. apply head_Some_elem_of in H.
  apply elem_of_map_to_list in H. now apply map_lookup_filter_Some in H.
Qed.

Lemma Chat_findOne_direct_None (k p c : string) (ch : Chat) (d : DB) :
  Chat_findOne_direct k p d = None →
  chats d !! c = Some ch → is_direct_of k p ch = false.
Proof.
  unfold Chat_findOne_direct. intros H Hc.
  apply head_None, map_to_list_empty_iff in H.
  destruct (is_direct_of k p ch) eqn:Hd; [|done].
  assert (Hin : filter (λ kv : string * Chat, is_direct_of k p kv.2 = true)
                  (chats d) !! c = Some ch)
    by now apply map_lookup_filter_Some.
  rewrite H in Hin. now rewrite lookup_empty in Hin.
Qed.

Lemma cast_Val_destructurable (body : JsVal) (field p : string) :
  cast_oid castObjectId (prop field body) = Val p → destructurable body = true.
Proof. destruct body; try reflexivity; discriminate. Qed.

Lemma create_chat_existing
    (o : Oracle) (new_id uid k p c0 : string) (body : JsVal) (u : User)
    (ch0 : Chat) (d : DB) :
  castObjectId (JStr uid) = Some k →
  cast_oid castObjectId (prop "participantId" body) = Val p →
  users d !! p = Some u →
  chats d !! c0 = Some ch0 → is_direct_of k p ch0 = true →
  storage_ok o 0 = true → storage_ok o 1 = true →
  storage_ok o 2 = true → storage_ok o 3 = true →
  ∃ c ch, chats d !! c = Some ch ∧ is_direct_of k p ch = true ∧
    create_chat castObjectId o new_id uid body d
    = ({| code := 200;
          body := BChat (view_chat d c ch (count_unread c k (messages d))) |},
       d).
Proof.
  intros Hk Hp Hu Hc0 Hd0 H0 H1 H2 H3. unfold create_chat.
  rewrite (cast_Val_destructurable _ _ _ Hp), H0, Hp, Hu, cast_oid_JStr, Hk,
    H1, H2, H3. simpl.
  destruct (Chat_findOne_direct k p d) as [[c ch]|] eqn:Hf.
  - apply Chat_findOne_direct_Some in Hf as [Hc Hd]. eauto.
  - now rewrite (Chat_findOne_direct_None k p c0 ch0 d Hf Hc0) in Hd0.
Qed.

(** [POST /] changes the store in one way only: whatever the request and
    whatever fails, users and messages are as before and every chat there
    was is unchanged; the store is either untouched, or has gained, under
    the new id, one direct chat of the caller and the requested
    participant, which exists, when the two had no direct chat.  The
    response that goes with a new chat is 201, or 500 when reading the
    saved chat back fails. *)
Theorem create_chat_adds_at_most_one_direct_chat
    (o : Oracle) (new_id uid : string) (body : JsVal) (d : DB) :
  chats d !! new_id = None →
  let res := create_chat castObjectId o new_id uid body d in
  users res.2 = users d ∧ messages res.2 = messages d ∧
  (∀ c ch, chats d !! c = Some ch → chats res.2 !! c = Some ch) ∧
  (res.2 = d ∧ code res.1 ≠ 201 ∨
   ∃ k p, castObjectId (JStr uid) = Some k ∧
     cast_oid castObjectId (prop "participantId" body) = Val p ∧
     is_Some (users d !! p) ∧
     (∀ c ch, chats d !! c = Some ch → is_direct_of k p ch = false) ∧
     chats res.2
     = <[new_id := {| participants := [k; p]; lastMessage := None;
                      isGroup := false; chat_updatedAt := now o |}]> (chats d) ∧
     (code res.1 = 201 ∨ res.1 = server_error)).
Proof.
  intros Hfresh res. subst res. unfold create_chat.
  destruct (negb (destructurable body)); [simpl; auto 10|].
  destruct (negb (storage_ok o 0)); [simpl; auto 10|].
  destruct (cast_oid castObjectId (prop "participantId" body)) as [| |p] eqn:Hp;
    [simpl; auto 10..|].
  destruct (users d !! p) as [u|] eqn:Hu; [|simpl; auto 10].
  rewrite cast_oid_JStr.
  destruct (castObjectId (JStr uid)) as [k|] eqn:Hk; [|simpl; auto 10].
  destruct (negb (storage_ok o 1)); [simpl; auto 10|].
  destruct (Chat_findOne_direct k p d) as [[c ch]|] eqn:Hf.
  { destruct (storage_ok o 2 && storage_ok o 3); simpl; auto 10. }
  destruct (negb (storage_ok o 2)); [simpl; auto 10|].
  assert (Hkeep : ∀ c ch, chats d !! c = Some ch →
            <[new_id := {| participants := [k; p]; lastMessage := None;
                           isGroup := false; chat_updatedAt := now o |}]>
              (chats d) !! c = Some ch).
  { intros c ch Hc. rewrite lookup_insert_ne; [done|]. congruence. }
  destruct (negb (storage_ok o 3)); simpl;
    (split; [done|]; split; [done|]; split; [exact Hkeep|]; right;
     exists k, p; repeat split; eauto using Chat_findOne_direct_None).
Qed.

(** [POST /] does not duplicate a direct chat: when the caller and the
    participant already share a two-person chat that is not a group, the
    response is 200 with such a chat (its two participants are the caller
    and the participant) and its unread count for the caller, and the
    store is unchanged. *)
Theorem create_chat_returns_existing_direct_chat
    (o : Oracle) (new_id uid k p c0 : string) (body : JsVal) (u : User)
    (ch0 : Chat) (d : DB) :
  castObjectId (JStr uid) = Some k →
  cast_oid castObjectId (prop "participantId" body) = Val p →
  users d !! p = Some u →
  chats d !! c0 = Some ch0 → is_direct_of k p ch0 = true →
  storage_ok o 0 = true → storage_ok o 1 = true →
  storage_ok o 2 = true → storage_ok o 3 = true →
  ∃ c ch v, create_chat castObjectId o new_id uid body d
            = ({| code := 200; body := BChat v |}, d) ∧
    chats d !! c = Some ch ∧ cv_id v = c ∧ cv_isGroup v = false ∧
    length (participants ch) = 2 ∧ k ∈ participants ch ∧ p ∈ participants ch ∧
    cv_unreadCount v = count_unread c k (messages d).
Proof.
  intros Hk Hp Hu Hc0 Hd0 H0 H1 H2 H3.
  destruct (create_chat_existing o new_id uid k p c0 body u ch0 d)
    as (c & ch & Hc & Hd & Hr); try done.
  exists c, ch. eexists. split; [exact Hr|]. simpl.
  unfold is_direct_of in Hd.
  apply andb_true_iff in Hd as [Hd Hlen].
  apply andb_true_iff in Hd as [Hd Hpin].
  apply andb_true_iff in Hd as [Hg Hkin].
  apply negb_true_iff in Hg. apply bool_decide_eq_true in Hpin, Hkin.
  apply Nat.eqb_eq in Hlen. auto 10.
Qed.

(** Creating twice creates once: after a [POST /] answered 201, the same
    request (under any new id, with the store reachable) is answered 200
    with a direct chat of the two and leaves the store as the first call
    left it. *)
Theorem create_chat_twice_creates_once
    (o o' : Oracle) (new_id new_id' uid : string) (body : JsVal)
    (d d' : DB) (resp : Response) :
  create_chat castObjectId o new_id uid body d = (resp, d') →
  code resp = 201 →
  storage_ok o' 0 = true → storage_ok o' 1 = true →
  storage_ok o' 2 = true → storage_ok o' 3 = true →
  ∃ k p c ch,
    castObjectId (JStr uid) = Some k ∧
    cast_oid castObjectId (prop "participantId" body) = Val p ∧
    chats d' !! c = Some ch ∧ is_direct_of k p ch = true ∧
    create_chat castObjectId o' new_id' uid body d'
    = ({| code := 200;
          body := BChat (view_chat d' c ch (count_unread c k (messages d'))) |},
       d').
Proof.
  intros Hr Hcode H0 H1 H2 H3. revert Hr. unfold create_chat at 1.
  destruct (negb (destructurable body)); [intros [= <- <-]; done|].
  destruct (negb (storage_ok o 0)); [intros [= <- <-]; done|].
  destruct (cast_oid castObjectId (prop "participantId" body)) as [| |p] eqn:Hp;
    [intros [= <- <-]; done..|].
  destruct (users d !! p) as [u|] eqn:Hu; [|intros [= <- <-]; done].
  rewrite cast_oid_JStr.
  destruct (castObjectId (JStr uid)) as [k|] eqn:Hk; [|intros [= <- <-]; done].
  destruct (negb (storage_ok o 1)); [intros [= <- <-]; done|].
  destruct (Chat_findOne_direct k p d) as [[c ch]|] eqn:Hf.
  { destruct (storage_ok o 2 && storage_ok o 3); intros [= <- <-]; done. }
  destruct (negb (storage_ok o 2)); [intros [= <- <-]; done|].
  destruct (negb (storage_ok o 3)); [intros [= <- <-]; done|].
  intros [= <- <-]. exists k, p.
  set (new := {| participants := [k; p]; lastMessage := None;
                 isGroup := false; chat_updatedAt := now o |}).
  set (d1 := set_chats d (<[new_id := new]> (chats d))).
  assert (Hnew : chats d1 !! new_id = Some new) by apply lookup_insert_eq.
  assert (Hdir : is_direct_of k p new = true).
  { unfold is_direct_of. simpl. rewrite !bool_decide_eq_true_2; [done|..].
    - apply list_elem_of_In. simpl. auto.
    - apply list_elem_of_In. simpl. auto. }
  destruct (create_chat_existing o' new_id' uid k p new_id body u new d1)
    as (c & ch & Hc & Hd & Hr'); try done.
  exists c, ch. auto.
Qed.

(** A chat with oneself cannot be had beside another chat: when the caller
    names their own id and already has some two-person chat that is not a
    group, with anyone, [POST /] answers 200 with one of the caller's
    two-person chats and creates nothing. *)
Theorem create_chat_with_self_returns_another_chat
    (o : Oracle) (new_id uid k c0 : string) (body : JsVal) (u : User)
    (ch0 : Chat) (d : DB) :
  castObjectId (JStr uid) = Some k →
  cast_oid castObjectId (prop "participantId" body) = Val k →
  users d !! k = Some u →
  chats d !! c0 = Some ch0 → isGroup ch0 = false →
  k ∈ participants ch0 → length (participants ch0) = 2 →
  storage_ok o 0 = true → storage_ok o 1 = true →
  storage_ok o 2 = true → storage_ok o 3 = true →
  ∃ c ch v, create_chat castObjectId o new_id uid body d
            = ({| code := 200; body := BChat v |}, d) ∧
    chats d !! c = Some ch ∧ cv_id v = c ∧
    k ∈ participants ch ∧ length (participants ch) = 2.
Proof.
  intros Hk Hp Hu Hc0 Hg Hin Hlen H0 H1 H2 H3.
  assert (Hd0 : is_direct_of k k ch0 = true).
  { unfold is_direct_of. rewrite Hg, Hlen, !bool_decide_eq_true_2; done. }
  destruct (create_chat_existing o new_id uid k k c0 body u ch0 d)
    as (c & ch & Hc & Hd & Hr); try done.
  exists c, ch. eexists. split; [exact Hr|]. simpl.
  unfold is_direct_of in Hd.
  apply andb_true_iff in Hd as [Hd Hl].
  apply andb_true_iff in Hd as [_ Hkin].
  apply bool_decide_eq_true in Hkin. apply Nat.eqb_eq in Hl. auto.
Qed.

(** ** [GET /]: the caller's chats *)

(** When the store answers, [GET /] lists exactly the chats the caller
    participates in, each once, the most recently updated first, each
    with the number of unread messages of that chat the caller did not
    write. *)
Theorem get_chats_lists_own_chats
    (o : Oracle) (uid k : string) (d : DB) (vs : list ChatView) :
  castObjectId (JStr uid) = Some k →
  body (get_chats castObjectId o uid d) = BChats vs →
  code (get_chats castObjectId o uid d) = 200 ∧
  (∀ c, c ∈ cv_id <$> vs ↔ ∃ ch, chats d !! c = Some ch ∧ k ∈ participants ch) ∧
  NoDup (cv_id <$> vs) ∧
  StronglySorted (λ a b, cv_updatedAt b ≤ cv_updatedAt a) vs ∧
  Forall (λ v, ∃ ch, chats d !! cv_id v = Some ch ∧
                 v = view_chat d (cv_id v) ch
                       (count_unread (cv_id v) k (messages d))) vs.
Proof.
  intros Hk. unfold get_chats. rewrite cast_oid_JStr, Hk.
  destruct (negb (storage_ok o 0)); [done|].
  set (own := filter (λ kv : string * Chat, k ∈ participants kv.2) (chats d)).
  set (mine := merge_sort newer_chat_first (map_to_list own)).
  destruct (forallb _ _); [|done]. simpl. intros [= <-]. split; [done|].
  assert (Hperm : mine ≡ₚ map_to_list own) by apply merge_sort_Permutation.
  assert (Hids : cv_id <$> ((λ kv : string * Chat,
                    view_chat d kv.1 kv.2 (count_unread kv.1 k (messages d)))
                    <$> mine) = mine.*1).
  { rewrite <- list_fmap_compose. now apply list_fmap_ext. }
  assert (Hmem : ∀ c ch, (c, ch) ∈ mine ↔ chats d !! c = Some ch ∧ k ∈ participants ch).
  { intros c ch. rewrite Hperm, elem_of_map_to_list. subst own.
    now rewrite map_lookup_filter_Some. }
  rewrite Hids. split; [|split; [|split]].
  - intros c. rewrite list_elem_of_fmap. split.
    + intros ([c' ch] & -> & Hin). apply Hmem in Hin. eauto.
    + intros (ch & Hc). exists (c, ch). split; [done|]. now apply Hmem.
  - rewrite Hperm. apply NoDup_fst_map_to_list.
  - apply (StronglySorted_fmap _ newer_chat_first); [done|].
    apply StronglySorted_merge_sort; apply _.
  - apply Forall_fmap, Forall_forall. intros [c ch] Hin. simpl.
    apply Hmem in Hin as [Hc _]. eauto.
Qed.

(** ** The unread count and the socket handlers *)

Lemma count_unread_app (chat k : string) (ms : list Message) (m : Message) :
  count_unread chat k (ms ++ [m])
  = count_unread chat k ms + (if is_unread_for chat k m then 1 else 0).
Proof.
  unfold count_unread. rewrite List.filter_app, List.length_app. simpl.
  now destruct (is_unread_for chat k m).
Qed.

Lemma count_unread_none (chat k : string) (ms : list Message) :
  (∀ m, In m ms → is_unread_for chat k m = false) →
  count_unread chat k ms = 0.
Proof.
  unfold count_unread. induction ms as [|m ms IH]; simpl; [done|].
  intros H. rewrite (H m) by now left. apply IH. intros x Hx. apply H. now right.
Qed.

(** A stored [send_message] raises by one the unread count of its chat for
    everyone but its sender, and changes no other count: this holds as
    soon as the [save()] succeeds, whatever happens to the later storage
    calls. *)
Theorem send_message_raises_unread_count
    (o : Oracle) (sid : string) (s : Socket) (data : JsVal) (st : State)
    (m : Message) :
  sockets st !! sid = Some s →
  Message_validate castObjectId numberToString o (userId s) (prop "content" data)
    (prop "chatId" data) = Some m →
  storage_ok o 0 = true →
  ∃ r, on_send_message castObjectId numberToString o sid data st = Done r ∧
    ∀ chat k,
      count_unread chat k (messages (db (state r)))
      = count_unread chat k (messages (db st))
        + (if String.eqb (chatId m) chat && negb (String.eqb (sender m) k)
           then 1 else 0).
Proof.
  intros Hs Hv H0.
  destruct (on_send_message_cases castObjectId numberToString o sid s data st Hs)
    as [[[Hno|Hno] _] | [(m' & d & Hv' & _ & _ & Hd & Hr) | (m' & d & Hv' & _ & _ & _ & Hd & _ & Hr)]];
    try congruence;
    (assert (m' = m) by congruence; subst m';
     rewrite Hr; eexists; split; [reflexivity|]; simpl;
     intros chat k; rewrite Hd, count_unread_app; unfold is_unread_for;
     assert (Hread : read m = false)
       by (destruct (Message_validate_Some _ _ _ _ _ _ _ Hv)
             as (? & ? & ? & _ & _ & _ & _ & ->); reflexivity);
     now rewrite Hread, andb_true_r).
Qed.

(** What a [read_message] does to the unread counts the REST API shows:
    with [strictQuery] off no count of any chat changes for anyone; with
    [strictQuery] on, once the update reaches the store, the chat has no
    unread message left for anyone. *)
Theorem read_message_and_unread_counts
    (o : Oracle) (sid : string) (data : JsVal) (st : State) (r : Result) :
  on_read_message castObjectId strictQuery operatorCondition o sid data st = Done r →
  (strictQuery = false →
     ∀ chat k, count_unread chat k (messages (db (state r)))
               = count_unread chat k (messages (db st))) ∧
  (strictQuery = true →
     ∀ s c, sockets st !! sid = Some s → storage_ok o 0 = true →
       nullish data = false →
       chat_condition castObjectId operatorCondition (prop "chatId" data)
       = Some (Is (FId c)) →
       ∀ k, count_unread c k (messages (db (state r))) = 0).
Proof.
  intros Hr. split.
  - intros Hq chat k.
    now rewrite (on_read_message_loose_marks_nothing castObjectId strictQuery
                   operatorCondition o sid data st r Hq Hr).
  - intros Hq s c Hs H0 Hd Hc k.
    revert Hr. unfold on_read_message, destructurable. rewrite Hs, Hd, H0. simpl.
    destruct (read_filter _ _ _ _ _) as [f|] eqn:Hf.
    2:{ unfold read_filter in Hf. now rewrite Hc in Hf. }
    intros [= <-]. simpl. apply count_unread_none. intros m Hin.
    unfold Message_updateMany in Hin. apply in_map_iff in Hin as (m0 & <- & _).
    destruct (read_filter_strict_selects_all_unread castObjectId strictQuery
                operatorCondition _ _ f m0 Hq Hf) as (c' & Hc' & Hsel).
    assert (c' = Is (FId c)) by congruence. subst c'.
    rewrite chat_cond_is_id in Hsel. unfold is_unread_for.
    destruct (filter_matches f m0) eqn:Hm.
    + simpl. apply andb_false_r.
    + destruct (String.eqb_spec (chatId m0) c) as [Hch|Hch]; [|done].
      destruct (read m0) eqn:Hrd; [apply andb_false_r|].
      assert (false = true); [|done]. now apply Hsel.
Qed.

End RouteProperties.

(** * The further properties on the sample deployment *)

(** A's token on the empty server. *)
Lemma connect_accepted_iff_witness :
  ∃ r, connect sample_verify hexObjectId all_ok "s1" (JStr "token-A") st_empty
       = (Accepted, r).
Proof.
  apply (proj1 (connect_accepted_iff sample_verify hexObjectId all_ok "s1"
                  (JStr "token-A") st_empty)).
  exists "token-A", uA, uA.
  split; [reflexivity|]. split; [discriminate|].
  split; [reflexivity|]. split; [reflexivity|]. vm_compute; reflexivity.
Defined.

(** A's record goes online, B's stays. *)
Lemma connect_marks_user_online_witness :
  "token-A" ≠ "" ∧ sample_verify "token-A" = Some uA ∧
  storage_ok all_ok 0 = true ∧ hexObjectId (JStr uA) = Some uA ∧
  ∃ r, connect sample_verify hexObjectId all_ok "s1" (JStr "token-A") st_empty
       = (Accepted, r) ∧
    status <$> users (db (state r)) !! uA = Some online ∧
    users (db (state r)) !! uB = Some (sample_user "B").
Proof.
  assert (Hne : "token-A" ≠ "") by discriminate.
  assert (Hk : hexObjectId (JStr uA) = Some uA) by (vm_compute; reflexivity).
  split; [exact Hne|]. split; [reflexivity|]. split; [reflexivity|].
  split; [exact Hk|].
  destruct (connect_marks_user_online sample_verify hexObjectId all_ok "s1"
              "token-A" uA uA st_empty Hne eq_refl eq_refl Hk)
    as (r & Hr & _ & _ & Hother & Hself & _).
  exists r. split; [exact Hr|]. split.
  - rewrite (Hself (sample_user "A")) by (vm_compute; reflexivity). reflexivity.
  - rewrite Hother by discriminate. vm_compute; reflexivity.
Defined.

(** A's new socket is in the room of [chat1], not in that of [chat2]. *)
Lemma connection_joins_participant_chats_witness :
  "token-A" ≠ "" ∧ sample_verify "token-A" = Some uA ∧
  storage_ok all_ok 0 = true ∧ hexObjectId (JStr uA) = Some uA ∧
  storage_ok all_ok 1 = true ∧
  ∃ r s', connect sample_verify hexObjectId all_ok "s1" (JStr "token-A") st_empty
          = (Accepted, r) ∧
    sockets (state r) !! "s1" = Some s' ∧
    chat1 ∈ rooms s' ∧ "s1" ∈ rooms s' ∧ chat2 ∉ rooms s'.
Proof.
  assert (Hne : "token-A" ≠ "") by discriminate.
  assert (Hk : hexObjectId (JStr uA) = Some uA) by (vm_compute; reflexivity).
  split; [exact Hne|]. split; [reflexivity|]. split; [reflexivity|].
  split; [exact Hk|]. split; [reflexivity|].
  destruct (connection_joins_participant_chats sample_verify hexObjectId all_ok
              "s1" "token-A" uA uA st_empty Hne eq_refl eq_refl Hk eq_refl)
    as (r & s' & Hr & Hs' & _ & Hrooms & _).
  exists r, s'. split; [exact Hr|]. split; [exact Hs'|]. split; [|split].
  - apply Hrooms. right. eexists. split; [vm_compute; reflexivity|].
    apply list_elem_of_In. simpl. auto.
  - apply Hrooms. now left.
  - intros Hin. apply Hrooms in Hin as [Heq|(ch & Hch & _)].
    + discriminate Heq.
    + vm_compute in Hch. discriminate Hch.
Defined.

(** A connects while the chats cannot be read. *)
Lemma connection_survives_room_lookup_failure_witness :
  "token-A" ≠ "" ∧ sample_verify "token-A" = Some uA ∧
  storage_ok second_fails 0 = true ∧ hexObjectId (JStr uA) = Some uA ∧
  storage_ok second_fails 1 = false ∧
  ∃ r, connect sample_verify hexObjectId second_fails "s1" (JStr "token-A") st_empty
       = (Accepted, r) ∧
    sockets (state r) !! "s1" = Some {| userId := uA; rooms := {[ "s1" ]} |} ∧
    connectedUsers (state r) !! uA = Some "s1".
Proof.
  assert (Hne : "token-A" ≠ "") by discriminate.
  assert (Hk : hexObjectId (JStr uA) = Some uA) by (vm_compute; reflexivity).
  split; [exact Hne|]. split; [reflexivity|]. split; [reflexivity|].
  split; [exact Hk|]. split; [reflexivity|].
  destruct (connection_survives_room_lookup_failure sample_verify hexObjectId
              second_fails "s1" "token-A" uA uA st_empty Hne eq_refl eq_refl Hk
              eq_refl)
    as (r & Hr & Hs & Hreg & _).
  exists r. auto.
Defined.

(** A's message leaves the sockets and the registry alone. *)
Lemma event_handlers_keep_subscriptions_witness :
  ∃ r, on_send_message hexObjectId decimal all_ok "s1" hello_payload st_ABC = Done r ∧
    sockets (state r) = sockets st_ABC ∧
    connectedUsers (state r) = connectedUsers st_ABC ∧
    users (db (state r)) = users (db st_ABC).
Proof.
  destruct (on_send_message hexObjectId decimal all_ok "s1" hello_payload st_ABC)
    as [r|] eqn:Hr; [|vm_compute in Hr; discriminate Hr].
  exists r. split; [reflexivity|].
  exact (event_handlers_keep_subscriptions hexObjectId false decimal
           sample_operators all_ok "s1"
           hello_payload st_ABC r (or_introl Hr)).
Defined.


(** From the empty server to A connected and listening; and A leaving
    before that. *)
Lemma registry_sound_while_listening_witness :
  registry_sound st_empty ∧
  rtc (listening_step sample_verify hexObjectId false decimal sample_operators)
    st_empty st_A ∧
  registry_sound st_A ∧
  sockets st_empty !! "s1" = None ∧
  ∃ r, connect sample_verify hexObjectId all_ok "s1" (JStr "token-A") st_empty
       = (Accepted, r) ∧
    ¬ registry_sound (state (leave_before_listening "s1" r)).
Proof.
  assert (H0 : registry_sound st_empty).
  { intros u sid Hu. vm_compute in Hu. discriminate Hu. }
  assert (Hrun : rtc (listening_step sample_verify hexObjectId false decimal
                        sample_operators) st_empty st_A).
  { apply rtc_once.
    replace st_A with
      (state (connect sample_verify hexObjectId all_ok "s1" (JStr "token-A")
                st_empty).2) by (vm_compute; reflexivity).
    eapply (step_connect _ _ _ _ _ st_empty all_ok "s1" (JStr "token-A"));
      [vm_compute; reflexivity | apply surjective_pairing]. }
  destruct (registry_sound_while_listening sample_verify hexObjectId false
              decimal sample_operators st_empty st_A) as [Hkeep Hbreak].
  split; [exact H0|]. split; [exact Hrun|]. split; [exact (Hkeep H0 Hrun)|].
  split; [reflexivity|].
  set (cr := connect sample_verify hexObjectId all_ok "s1" (JStr "token-A") st_empty).
  assert (Hcr : cr = (Accepted, cr.2)) by (vm_compute; reflexivity).
  exists cr.2. split; [exact Hcr|].
  exact (proj2 (Hbreak all_ok "s1" (JStr "token-A") cr.2 eq_refl Hcr)).
Defined.

(** A connects to the empty server and leaves, heard or unheard. *)
Lemma disconnect_undoes_connect_only_when_heard_witness :
  sockets st_empty !! "s1" = None ∧ sample_verify "token-A" = Some uA ∧
  connectedUsers st_empty !! uA = None ∧
  ∃ r r', connect sample_verify hexObjectId all_ok "s1" (JStr "token-A") st_empty
          = (Accepted, r) ∧
    on_disconnect hexObjectId later "s1" (state r) = Done r' ∧
    connectedUsers (state r') = connectedUsers st_empty ∧
    sockets (state r') = sockets st_empty ∧
    connectedUsers (state (leave_before_listening "s1" r)) !! uA = Some "s1" ∧
    sockets (state (leave_before_listening "s1" r)) = sockets st_empty.
Proof.
  split; [reflexivity|]. split; [reflexivity|]. split; [reflexivity|].
  set (cr := connect sample_verify hexObjectId all_ok "s1" (JStr "token-A") st_empty).
  assert (Hcr : cr = (Accepted, cr.2)) by (vm_compute; reflexivity).
  destruct (disconnect_undoes_connect_only_when_heard sample_verify hexObjectId
              all_ok later "s1" "token-A" uA st_empty cr.2 eq_refl eq_refl
              eq_refl Hcr)
    as [(r' & Hr' & Hreg & Hs) (Hstale & Hgone & _)].
  exists cr.2, r'. auto 10.
Defined.

(** A's message is saved while the chat cannot be updated. *)
Lemma send_message_late_failure_keeps_message_witness :
  sockets st_ABC !! "s1" = Some sock_s1 ∧
  storage_ok second_fails 0 = true ∧ storage_ok second_fails 1 = false ∧
  ∃ r, on_send_message hexObjectId decimal second_fails "s1" hello_payload st_ABC = Done r ∧
    out r = [ {| recipients := {[ "s1" ]};
                 event := error "Failed to send message" |} ] ∧
    (∃ m, messages (db (state r)) = [m] ∧ content m = "hi") ∧
    chats (db (state r)) = chats (db st_ABC).
Proof.
  assert (Hs : sockets st_ABC !! "s1" = Some sock_s1) by (vm_compute; reflexivity).
  split; [exact Hs|]. split; [reflexivity|]. split; [reflexivity|].
  set (m := {| _id := 3; sender := uA; content := "hi"; chatId := chat1;
               read := false; createdAt := 7; updatedAt := 7 |}).
  assert (Hv : Message_validate hexObjectId decimal second_fails (userId sock_s1)
                 (prop "content" hello_payload) (prop "chatId" hello_payload)
               = Some m) by (vm_compute; reflexivity).
  destruct (send_message_late_failure_keeps_message hexObjectId decimal second_fails
              "s1" sock_s1 hello_payload st_ABC m Hs Hv eq_refl
              (or_introl eq_refl))
    as (r & Hr & Hout & Hms & Hchats & _).
  exists r. split; [exact Hr|]. split; [exact Hout|]. split.
  - exists m. split; [exact Hms | reflexivity].
  - apply Hchats. reflexivity.
Defined.

(** A's message moves the pointer of [chat1]. *)
Lemma send_message_moves_only_target_pointer_witness :
  sockets st_ABC !! "s1" = Some sock_s1 ∧
  Message_validate hexObjectId decimal all_ok (userId sock_s1)
    (prop "content" hello_payload) (prop "chatId" hello_payload)
  = Some hello_message ∧
  ∃ r, on_send_message hexObjectId decimal all_ok "s1" hello_payload st_ABC = Done r ∧
    messages (db (state r)) = [hello_message] ∧
    dom (chats (db (state r))) = dom (chats (db st_ABC)) ∧
    lastMessage <$> chats (db (state r)) !! chat1 = Some (Some 1) ∧
    participants <$> chats (db (state r)) !! chat1 = Some [uA; uB].
Proof.
  assert (Hs : sockets st_ABC !! "s1" = Some sock_s1) by (vm_compute; reflexivity).
  assert (Hv : Message_validate hexObjectId decimal all_ok (userId sock_s1)
                 (prop "content" hello_payload) (prop "chatId" hello_payload)
               = Some hello_message) by (vm_compute; reflexivity).
  split; [exact Hs|]. split; [exact Hv|].
  destruct (send_message_moves_only_target_pointer hexObjectId decimal all_ok "s1"
              sock_s1 hello_payload st_ABC hello_message Hs Hv eq_refl eq_refl
              eq_refl)
    as (r & Hr & Hms & Hdom & _ & Hptr & _).
  exists r. split; [exact Hr|]. split; [exact Hms|]. split; [exact Hdom|].
  assert (Hc : chats (db st_ABC) !! chatId hello_message
               = Some {| participants := [uA; uB]; lastMessage := None;
                         isGroup := false; chat_updatedAt := 0 |})
    by (vm_compute; reflexivity).
  change chat1 with (chatId hello_message).
  rewrite (Hptr _ Hc). split; reflexivity.
Defined.

(** A reads [chat1] with [strictQuery] on: two records stay two. *)
Lemma read_message_touches_only_read_flag_witness :
  ∃ r, on_read_message hexObjectId true sample_operators all_ok "s1" chat1_payload st_unread = Done r ∧
    Forall2 (same_or_marked 7) (messages (db st_unread)) (messages (db (state r))) ∧
    length (messages (db (state r))) = 2.
Proof.
  destruct (on_read_message hexObjectId true sample_operators all_ok "s1" chat1_payload st_unread)
    as [r|] eqn:Hr; [|vm_compute in Hr; discriminate Hr].
  exists r. split; [reflexivity|].
  destruct (read_message_touches_only_read_flag hexObjectId true sample_operators all_ok "s1"
              chat1_payload st_unread r Hr) as (HF & Hlen & _).
  split; [exact HF | exact Hlen].
Defined.

(** A reads [chat1] twice. *)
Lemma read_message_idempotent_witness :
  storage_ok all_ok 0 = true ∧
  ∃ r r', on_read_message hexObjectId true sample_operators all_ok "s1" chat1_payload st_unread
          = Done r ∧
    on_read_message hexObjectId true sample_operators later "s1" chat1_payload (state r) = Done r' ∧
    messages (db (state r')) = messages (db (state r)).
Proof.
  split; [reflexivity|].
  destruct (on_read_message hexObjectId true sample_operators all_ok "s1" chat1_payload st_unread)
    as [r|] eqn:Hr; [|vm_compute in Hr; discriminate Hr].
  destruct (on_read_message hexObjectId true sample_operators later "s1" chat1_payload (state r))
    as [r'|] eqn:Hr'.
  - exists r, r'. split; [reflexivity|]. split; [exact Hr'|].
    exact (read_message_idempotent hexObjectId true sample_operators all_ok later "s1"
             chat1_payload st_unread r r' eq_refl Hr Hr').
  - exfalso. vm_compute in Hr. injection Hr as <-. vm_compute in Hr'.
    discriminate Hr'.
Defined.

(** A reads with [strictQuery] on: [chat1] by its id, and then "every
    chat" by the operator object [{ $ne: null }], which also marks C's
    message in [chat2]. *)
Lemma read_message_strict_marks_selected_chats_witness :
  sockets st_two_chats !! "s1" = Some sock_s1 ∧
  storage_ok all_ok 0 = true ∧
  chat_condition hexObjectId sample_operators (prop "chatId" chat1_payload)
  = Some (Is (FId chat1)) ∧
  (∃ r, on_read_message hexObjectId true sample_operators all_ok "s1"
          chat1_payload st_two_chats = Done r ∧
     read <$> messages (db (state r)) = [true; false]) ∧
  (∃ sel r, chat_condition hexObjectId sample_operators
              (prop "chatId" any_chat_payload) = Some (Among sel) ∧
     on_read_message hexObjectId true sample_operators all_ok "s1"
       any_chat_payload st_two_chats = Done r ∧
     read <$> messages (db (state r)) = [true; true]).
Proof.
  assert (Hs : sockets st_two_chats !! "s1" = Some sock_s1) by (vm_compute; reflexivity).
  assert (Hc : chat_condition hexObjectId sample_operators
                 (prop "chatId" chat1_payload) = Some (Is (FId chat1)))
    by (vm_compute; reflexivity).
  split; [exact Hs|]. split; [reflexivity|]. split; [exact Hc|]. split.
  - destruct (read_message_strict_marks_selected_chats hexObjectId true
                sample_operators all_ok "s1" sock_s1 chat1_payload st_two_chats
                _ eq_refl Hs eq_refl eq_refl Hc)
      as (r & Hr & Hms & _).
    exists r. split; [exact Hr|]. rewrite Hms. vm_compute. reflexivity.
  - exists (λ _, true).
    assert (Hany : chat_condition hexObjectId sample_operators
                     (prop "chatId" any_chat_payload) = Some (Among (λ _, true)))
      by reflexivity.
    destruct (read_message_strict_marks_selected_chats hexObjectId true
                sample_operators all_ok "s1" sock_s1 any_chat_payload
                st_two_chats _ eq_refl Hs eq_refl eq_refl Hany)
      as (r & Hr & Hms & _).
    exists r. split; [exact Hany|]. split; [exact Hr|]. rewrite Hms.
    vm_compute. reflexivity.
Defined.

(** A reads [chat1] with [strictQuery] off: B is told, nothing is
    marked. *)
Lemma read_message_loose_announces_without_marking_witness :
  sockets st_unread !! "s1" = Some sock_s1 ∧ nullish chat1_payload = false ∧
  storage_ok all_ok 0 = true ∧
  chat_condition hexObjectId sample_operators (prop "chatId" chat1_payload)
  ≠ None ∧
  ∃ r e, on_read_message hexObjectId false sample_operators all_ok "s1" chat1_payload st_unread
         = Done r ∧
    messages (db (state r)) = messages (db st_unread) ∧
    out r = [e] ∧ event e = messages_read (JStr chat1) uA.
Proof.
  assert (Hs : sockets st_unread !! "s1" = Some sock_s1) by (vm_compute; reflexivity).
  assert (Hc : chat_condition hexObjectId sample_operators
                 (prop "chatId" chat1_payload) ≠ None)
    by (vm_compute; discriminate).
  split; [exact Hs|]. split; [reflexivity|]. split; [reflexivity|].
  split; [exact Hc|].
  destruct (read_message_loose_announces_without_marking hexObjectId false sample_operators
              all_ok "s1" sock_s1 chat1_payload st_unread eq_refl Hs eq_refl
              eq_refl Hc)
    as (r & Hr & Hms & _ & _ & Hout).
  exists r. eexists. split; [exact Hr|]. split; [exact Hms|].
  split; [exact Hout|]. reflexivity.
Defined.

(** A emits [typing] with the number 5 as payload. *)
Lemma typing_without_room_reaches_nobody_witness :
  sockets st_ABC !! "s1" = Some sock_s1 ∧ nullish (JNum 5) = false ∧
  (∀ n, prop "chatId" (JNum 5) ≠ JStr n) ∧
  on_typing "s1" (JNum 5) st_ABC
  = Done {| state := st_ABC;
            out := [ {| recipients := ∅;
                        event := typing JUndefined JUndefined |} ];
            log := [] |}.
Proof.
  assert (Hs : sockets st_ABC !! "s1" = Some sock_s1) by (vm_compute; reflexivity).
  assert (Hn : ∀ n, prop "chatId" (JNum 5) ≠ JStr n) by (intros n; discriminate).
  split; [exact Hs|]. split; [reflexivity|]. split; [exact Hn|].
  exact (typing_without_room_reaches_nobody "s1" sock_s1 (JNum 5) st_ABC Hs
           eq_refl Hn).
Defined.

(** C asks for the messages of [chat1], which is A's and B's; A asks for
    those of "chat-1". *)
Lemma get_messages_only_for_participants_witness :
  hexObjectId (JStr chat1) = Some chat1 ∧ hexObjectId (JStr uC) = Some uC ∧
  storage_ok all_ok 0 = true ∧
  (∀ ch, chats (db st_unread) !! chat1 = Some ch → uC ∉ participants ch) ∧
  get_messages hexObjectId all_ok uC chat1 (db st_unread)
  = {| code := 404; body := BError "Chat not found" |} ∧
  hexObjectId (JStr "chat-1") = None ∧
  get_messages hexObjectId all_ok uA "chat-1" (db st_unread)
  = {| code := 500; body := BError "Server error" |}.
Proof.
  assert (Hc : hexObjectId (JStr chat1) = Some chat1) by (vm_compute; reflexivity).
  assert (Hk : hexObjectId (JStr uC) = Some uC) by (vm_compute; reflexivity).
  assert (Hno : ∀ ch, chats (db st_unread) !! chat1 = Some ch → uC ∉ participants ch).
  { intros ch Hch. vm_compute in Hch. injection Hch as <-.
    intros Hin. apply list_elem_of_In in Hin. simpl in Hin.
    destruct Hin as [H|[H|[]]]; discriminate H. }
  split; [exact Hc|]. split; [exact Hk|]. split; [reflexivity|].
  split; [exact Hno|]. split.
  - exact (proj1 (proj2 (get_messages_only_for_participants hexObjectId all_ok
                           uC chat1 (db st_unread))) chat1 uC Hc Hk eq_refl Hno).
  - split; [reflexivity|].
    exact (proj2 (proj2 (get_messages_only_for_participants hexObjectId all_ok
                           uA "chat-1" (db st_unread))) eq_refl).
Defined.

(** A asks for the messages of [chat1]. *)
Lemma get_messages_returns_sorted_history_witness :
  hexObjectId (JStr chat1) = Some chat1 ∧ hexObjectId (JStr uA) = Some uA ∧
  uA ∈ [uA; uB] ∧
  ∃ js, get_messages hexObjectId all_ok uA chat1 (db st_unread)
        = {| code := 200; body := BMessages js |} ∧
    length js = 2 ∧
    StronglySorted (λ a b, j_createdAt a ≤ j_createdAt b) js.
Proof.
  assert (Hc : hexObjectId (JStr chat1) = Some chat1) by (vm_compute; reflexivity).
  assert (Hk : hexObjectId (JStr uA) = Some uA) by (vm_compute; reflexivity).
  assert (Hin : uA ∈ [uA; uB]) by (apply list_elem_of_In; simpl; auto).
  assert (Hch : chats (db st_unread) !! chat1
                = Some {| participants := [uA; uB]; lastMessage := None;
                          isGroup := false; chat_updatedAt := 0 |})
    by (vm_compute; reflexivity).
  split; [exact Hc|]. split; [exact Hk|]. split; [exact Hin|].
  destruct (get_messages_returns_sorted_history hexObjectId all_ok uA chat1
              chat1 uA _ (db st_unread) Hc Hk Hch Hin eq_refl eq_refl)
    as (js & Hr & Hperm & Hsorted & _).
  exists js. split; [exact Hr|]. split; [|exact Hsorted].
  rewrite Hperm. vm_compute. reflexivity.
Defined.

(** C asks for a chat with A: [chat2] is added, [chat1] is kept. *)
Lemma create_chat_adds_at_most_one_direct_chat_witness :
  chats sample_db !! chat2 = None ∧
  users (create_chat hexObjectId all_ok chat2 uC (invite uA) sample_db).2
  = users sample_db ∧
  chats (create_chat hexObjectId all_ok chat2 uC (invite uA) sample_db).2 !! chat1
  = chats sample_db !! chat1.
Proof.
  assert (Hf : chats sample_db !! chat2 = None) by (vm_compute; reflexivity).
  split; [exact Hf|].
  destruct (create_chat_adds_at_most_one_direct_chat hexObjectId all_ok chat2
              uC (invite uA) sample_db Hf) as (Hu & _ & Hkeep & _).
  split; [exact Hu|].
  rewrite (Hkeep chat1 {| participants := [uA; uB]; lastMessage := None;
                          isGroup := false; chat_updatedAt := 0 |})
    by (vm_compute; reflexivity).
  vm_compute. reflexivity.
Defined.

(** A asks for a chat with B, which exists. *)
Lemma create_chat_returns_existing_direct_chat_witness :
  hexObjectId (JStr uA) = Some uA ∧
  cast_oid hexObjectId (prop "participantId" (invite uB)) = Val uB ∧
  users sample_db !! uB = Some (sample_user "B") ∧
  ∃ v, create_chat hexObjectId all_ok chat2 uA (invite uB) sample_db
       = ({| code := 200; body := BChat v |}, sample_db) ∧
    cv_isGroup v = false ∧ cv_unreadCount v = 0.
Proof.
  assert (Hk : hexObjectId (JStr uA) = Some uA) by (vm_compute; reflexivity).
  assert (Hp : cast_oid hexObjectId (prop "participantId" (invite uB)) = Val uB)
    by (vm_compute; reflexivity).
  assert (Hu : users sample_db !! uB = Some (sample_user "B"))
    by (vm_compute; reflexivity).
  assert (Hch : chats sample_db !! chat1
                = Some {| participants := [uA; uB]; lastMessage := None;
                          isGroup := false; chat_updatedAt := 0 |})
    by (vm_compute; reflexivity).
  split; [exact Hk|]. split; [exact Hp|]. split; [exact Hu|].
  destruct (create_chat_returns_existing_direct_chat hexObjectId all_ok chat2
              uA uA uB chat1 (invite uB) _ _ sample_db Hk Hp Hu Hch
              ltac:(vm_compute; reflexivity) eq_refl eq_refl eq_refl eq_refl)
    as (c & ch & v & Hr & _ & _ & Hg & _ & _ & _ & Hn).
  exists v. split; [exact Hr|]. split; [exact Hg|]. rewrite Hn. reflexivity.
Defined.

(** C asks twice for a chat with A. *)
Lemma create_chat_twice_creates_once_witness :
  ∃ resp d' v,
    create_chat hexObjectId all_ok chat2 uC (invite uA) sample_db = (resp, d') ∧
    code resp = 201 ∧
    create_chat hexObjectId later uB uC (invite uA) d'
    = ({| code := 200; body := BChat v |}, d').
Proof.
  set (res := create_chat hexObjectId all_ok chat2 uC (invite uA) sample_db).
  assert (Hres : res = (res.1, res.2)) by apply surjective_pairing.
  assert (Hcode : code res.1 = 201) by (vm_compute; reflexivity).
  destruct (create_chat_twice_creates_once hexObjectId all_ok later chat2 uB uC
              (invite uA) sample_db res.2 res.1 Hres Hcode eq_refl eq_refl
              eq_refl eq_refl)
    as (k & p & c & ch & _ & _ & _ & _ & Hr).
  exists res.1, res.2. eexists. split; [exact Hres|]. split; [exact Hcode|].
  exact Hr.
Defined.

(** A asks for a chat with A and gets the chat with B. *)
Lemma create_chat_with_self_returns_another_chat_witness :
  hexObjectId (JStr uA) = Some uA ∧
  cast_oid hexObjectId (prop "participantId" (invite uA)) = Val uA ∧
  users sample_db !! uA = Some (sample_user "A") ∧
  ∃ v, create_chat hexObjectId all_ok chat2 uA (invite uA) sample_db
       = ({| code := 200; body := BChat v |}, sample_db) ∧
    cv_id v = chat1.
Proof.
  assert (Hk : hexObjectId (JStr uA) = Some uA) by (vm_compute; reflexivity).
  assert (Hp : cast_oid hexObjectId (prop "participantId" (invite uA)) = Val uA)
    by (vm_compute; reflexivity).
  assert (Hu : users sample_db !! uA = Some (sample_user "A"))
    by (vm_compute; reflexivity).
  assert (Hch : chats sample_db !! chat1
                = Some {| participants := [uA; uB]; lastMessage := None;
                          isGroup := false; chat_updatedAt := 0 |})
    by (vm_compute; reflexivity).
  split; [exact Hk|]. split; [exact Hp|]. split; [exact Hu|].
  destruct (create_chat_with_self_returns_another_chat hexObjectId all_ok chat2
              uA uA chat1 (invite uA) _ _ sample_db Hk Hp Hu Hch eq_refl
              ltac:(apply list_elem_of_In; simpl; auto) eq_refl
              eq_refl eq_refl eq_refl eq_refl)
    as (c & ch & v & Hr & Hc & Hid & _).
  exists v. split; [exact Hr|]. rewrite Hid.
  assert (Hdom : dom (chats sample_db) = {[ chat1 ]}) by (vm_compute; reflexivity).
  assert (Hin : c ∈ dom (chats sample_db)) by (apply elem_of_dom; eauto).
  rewrite Hdom in Hin. now apply elem_of_singleton in Hin.
Defined.

(** A lists the chats: [chat1], with B's message unread. *)
Lemma get_chats_lists_own_chats_witness :
  hexObjectId (JStr uA) = Some uA ∧
  ∃ vs, body (get_chats hexObjectId all_ok uA (db st_unread)) = BChats vs ∧
    code (get_chats hexObjectId all_ok uA (db st_unread)) = 200 ∧
    chat1 ∈ cv_id <$> vs ∧
    Forall (λ v, cv_id v = chat1 → cv_unreadCount v = 1) vs.
Proof.
  assert (Hk : hexObjectId (JStr uA) = Some uA) by (vm_compute; reflexivity).
  split; [exact Hk|].
  destruct (body (get_chats hexObjectId all_ok uA (db st_unread)))
    as [msg|ms|v|vs] eqn:Hb; try (vm_compute in Hb; discriminate Hb).
  exists vs. split; [reflexivity|].
  destruct (get_chats_lists_own_chats hexObjectId all_ok uA uA (db st_unread)
              vs Hk Hb) as (Hcode & Hmem & _ & _ & Hviews).
  split; [exact Hcode|]. split.
  - apply Hmem. eexists. split; [vm_compute; reflexivity|].
    apply list_elem_of_In. simpl. auto.
  - eapply Forall_impl; [exact Hviews|]. intros v (ch & _ & ->) Hid.
    simpl in *. rewrite Hid. vm_compute. reflexivity.
Defined.

(** A's message is unread for B and not for A. *)
Lemma send_message_raises_unread_count_witness :
  sockets st_ABC !! "s1" = Some sock_s1 ∧
  storage_ok all_ok 0 = true ∧
  ∃ r, on_send_message hexObjectId decimal all_ok "s1" hello_payload st_ABC = Done r ∧
    count_unread chat1 uB (messages (db (state r))) = 1 ∧
    count_unread chat1 uA (messages (db (state r))) = 0.
Proof.
  assert (Hs : sockets st_ABC !! "s1" = Some sock_s1) by (vm_compute; reflexivity).
  assert (Hv : Message_validate hexObjectId decimal all_ok (userId sock_s1)
                 (prop "content" hello_payload) (prop "chatId" hello_payload)
               = Some hello_message) by (vm_compute; reflexivity).
  split; [exact Hs|]. split; [reflexivity|].
  destruct (send_message_raises_unread_count hexObjectId decimal all_ok "s1" sock_s1
              hello_payload st_ABC hello_message Hs Hv eq_refl)
    as (r & Hr & Hcount).
  exists r. split; [exact Hr|]. rewrite !Hcount. split; vm_compute; reflexivity.
Defined.

(** After A reads [chat1] with [strictQuery] on, B has nothing unread
    there either. *)
Lemma read_message_and_unread_counts_witness :
  sockets st_unread !! "s1" = Some sock_s1 ∧ storage_ok all_ok 0 = true ∧
  nullish chat1_payload = false ∧
  chat_condition hexObjectId sample_operators (prop "chatId" chat1_payload)
  = Some (Is (FId chat1)) ∧
  count_unread chat1 uB (messages (db st_unread)) = 1 ∧
  ∃ r, on_read_message hexObjectId true sample_operators all_ok "s1"
         chat1_payload st_unread = Done r ∧
    count_unread chat1 uA (messages (db (state r))) = 0 ∧
    count_unread chat1 uB (messages (db (state r))) = 0.
Proof.
  assert (Hs : sockets st_unread !! "s1" = Some sock_s1) by (vm_compute; reflexivity).
  assert (Hc : chat_condition hexObjectId sample_operators
                 (prop "chatId" chat1_payload) = Some (Is (FId chat1)))
    by (vm_compute; reflexivity).
  split; [exact Hs|]. split; [reflexivity|]. split; [reflexivity|].
  split; [exact Hc|]. split; [vm_compute; reflexivity|].
  destruct (on_read_message hexObjectId true sample_operators all_ok "s1"
              chat1_payload st_unread)
    as [r|] eqn:Hr; [|vm_compute in Hr; discriminate Hr].
  exists r. split; [reflexivity|].
  destruct (read_message_and_unread_counts hexObjectId true sample_operators
              all_ok "s1" chat1_payload st_unread r Hr) as [_ Hstrict].
  split; exact (Hstrict eq_refl sock_s1 chat1 Hs eq_refl eq_refl Hc _).
Defined.
